(** * AssistantAgent: the per-turn orchestration of [_assistant_agent.py]

    A shallow embedding of [autogen_agentchat.agents._assistant_agent]:
    the constructor's registry checks, message ingestion, the concurrent
    tool-execution phase, handoff detection, and the three terminal
    branches (text, tool-call summary, reflection), followed by the
    properties of the turn that the specification states. *)

From Stdlib Require Import String Ascii.
From stdpp Require Import base option list strings gmap.

Local Open Scope string_scope.
Local Open Scope list_scope.

(** ** Python exceptions and fallible results *)

(** The exception classes that occur in the module.  [BaseExceptionOnly]
    stands for the classes that derive from [BaseException] but not from
    [Exception] ([asyncio.CancelledError], [KeyboardInterrupt], ...): an
    [except Exception] clause does not catch them. *)
Inductive ExcClass :=
  | ValueError
  | TypeError
  | AssertionError
  | KeyError
  | OtherException
  | BaseExceptionOnly.

(** An exception object: its class and [str(e)].  An exception whose
    [__str__] itself raises has no counterpart here. *)
Record PyExc := mkExc { exc_class : ExcClass; exc_str : string }.

(** [isinstance(e, Exception)] *)
Definition is_Exception (e : PyExc) : bool :=
  match exc_class e with
  | BaseExceptionOnly => false
  | _ => true
  end.

Inductive PyResult (A : Type) :=
  | Ok (a : A)
  | Raise (e : PyExc).
Arguments Ok {A} a.
Arguments Raise {A} e.

Definition is_Ok {A} (r : PyResult A) : bool :=
  match r with Ok _ => true | Raise _ => false end.

Definition res_map {A B} (f : A -> B) (r : PyResult A) : PyResult B :=
  match r with Ok a => Ok (f a) | Raise e => Raise e end.

Definition res_bind {A B} (r : PyResult A) (k : A -> PyResult B)
  : PyResult B :=
  match r with Ok a => k a | Raise e => Raise e end.

(** Evaluate [f] on the elements from left to right, stopping at the
    first that raises. *)
Fixpoint res_mapM {A B} (f : A -> PyResult B) (xs : list A)
  : PyResult (list B) :=
  match xs with
  | [] => Ok []
  | x :: xs' =>
      res_bind (f x) (fun y => res_map (cons y) (res_mapM f xs'))
  end.

(** ** A state-and-exception monad

    Python code mutates the agent and its collaborators and may raise at
    any point; mutations made before a [raise] stay.  A computation maps
    a state to a result and the state reached. *)
Module PyM.

Definition M (S A : Type) : Type := S -> PyResult A * S.

Definition ret {S A} (a : A) : M S A := fun s => (Ok a, s).

Definition bind {S A B} (m : M S A) (k : A -> M S B) : M S B :=
  fun s => match m s with
           | (Ok a, s') => k a s'
           | (Raise e, s') => (Raise e, s')
           end.

Definition raise {S A} (e : PyExc) : M S A := fun s => (Raise e, s).

Definition get {S} : M S S := fun s => (Ok s, s).

Definition modify {S} (f : S -> S) : M S unit := fun s => (Ok tt, f s).

(** [try: m except Exception as e: h e] *)
Definition try_except_Exception {S A} (m : M S A) (h : PyExc -> M S A)
  : M S A :=
  fun s => match m s with
           | (Ok a, s') => (Ok a, s')
           | (Raise e, s') =>
               if is_Exception e then h e s' else (Raise e, s')
           end.

(** [for x in xs: body x] *)
Fixpoint for_each {S A} (xs : list A) (body : A -> M S unit) : M S unit :=
  match xs with
  | [] => ret tt
  | x :: xs' => bind (body x) (fun _ => for_each xs' body)
  end.

(** A pure fallible step inside a computation. *)
Definition lift {S A} (r : PyResult A) : M S A := fun s => (r, s).

(** Run a computation on a component of a larger state. *)
Definition zoom {S T A} (proj : S -> T) (inj : T -> S -> S) (m : M T A)
  : M S A :=
  fun s => let '(r, t) := m (proj s) in (r, inj t s).

End PyM.

Declare Scope py_scope.
Delimit Scope py_scope with py.
Notation "x <- c ;; k" := (PyM.bind c (fun x => k))
  (at level 100, c at next level, right associativity) : py_scope.
Notation "c ;;; k" := (PyM.bind c (fun _ => k))
  (at level 100, right associativity) : py_scope.
Notation "x <-! c ;; k" := (res_bind c (fun x => k))
  (at level 100, c at next level, right associativity) : py_scope.

(** ** Values supplied by the environment *)

(** The types the module only passes around. *)
Class Universe := {
  (** the state of the external collaborators: model client, tools,
      memory providers, cancellation token *)
  World : Type;
  (** Python values exchanged with tools: parsed JSON arguments and
      raw return values *)
  PyValue : Type;
  (** Python callables accepted in [tools] *)
  Callable : Type;
  (** [autogen_core.memory.MemoryContent] *)
  MemoryContent : Type;
  (** [autogen_core.Image] *)
  Image : Type;
}.

(** ** Data model *)

(** [autogen_core.FunctionCall] *)
Record FunctionCall := mkFunctionCall {
  fc_id : string;
  fc_arguments : string;
  fc_name : string;
}.

(** [autogen_core.models.FunctionExecutionResult] *)
Record FunctionExecutionResult := mkFER {
  fer_content : string;
  fer_call_id : string;
}.

(** [autogen_core.models.RequestUsage] *)
Record RequestUsage := mkUsage {
  prompt_tokens : Z;
  completion_tokens : Z;
}.

(** The content of an inference result and of an [AssistantMessage]:
    [str | List[FunctionCall]]. *)
Inductive ModelContent :=
  | Text (s : string)
  | Calls (calls : list FunctionCall).

Section DataModel.
Context `{Universe}.

(** The content of a chat message and of a [UserMessage]:
    [str | List[str | Image]]. *)
Inductive MessageContent :=
  | Str (s : string)
  | Parts (items : list (string + Image)).

(** [autogen_core.models.LLMMessage] *)
Inductive LLMMessage :=
  | SystemMessage (content : string)
  | UserMessage (content : MessageContent) (source : string)
  | AssistantMessage (content : ModelContent) (source : string)
  | FunctionExecutionResultMessage (content : list FunctionExecutionResult).

(** [autogen_agentchat.messages.ChatMessage], the variants this module
    names.  A [MultiModalMessage] carries a list of parts, the others a
    string; [chat_content] is the attribute [content] of each. *)
Inductive ChatMessage :=
  | TextMessage (content : string) (source : string)
      (models_usage : option RequestUsage)
  | MultiModalMessage (content : list (string + Image)) (source : string)
      (models_usage : option RequestUsage)
  | HandoffMessage (content : string) (target : string) (source : string)
      (models_usage : option RequestUsage)
  | ToolCallSummaryMessage (content : string) (source : string)
      (models_usage : option RequestUsage).

Definition chat_content (m : ChatMessage) : MessageContent :=
  match m with
  | TextMessage c _ _ => Str c
  | MultiModalMessage c _ _ => Parts c
  | HandoffMessage c _ _ _ => Str c
  | ToolCallSummaryMessage c _ _ => Str c
  end.

Definition chat_source (m : ChatMessage) : string :=
  match m with
  | TextMessage _ s _ => s
  | MultiModalMessage _ s _ => s
  | HandoffMessage _ _ s _ => s
  | ToolCallSummaryMessage _ s _ => s
  end.

Definition chat_models_usage (m : ChatMessage) : option RequestUsage :=
  match m with
  | TextMessage _ _ u => u
  | MultiModalMessage _ _ u => u
  | HandoffMessage _ _ _ u => u
  | ToolCallSummaryMessage _ _ u => u
  end.

(** [isinstance(msg, MultiModalMessage)] *)
Definition is_MultiModalMessage (m : ChatMessage) : bool :=
  match m with MultiModalMessage _ _ _ => true | _ => false end.

(** [autogen_agentchat.messages.AgentEvent] *)
Inductive AgentEvent :=
  | MemoryQueryEvent (content : list MemoryContent) (source : string)
  | ToolCallRequestEvent (content : list FunctionCall) (source : string)
      (models_usage : option RequestUsage)
  | ToolCallExecutionEvent (content : list FunctionExecutionResult)
      (source : string).

(** [autogen_agentchat.base.Response] *)
Record Response := mkResponse {
  chat_message : ChatMessage;
  inner_messages : list AgentEvent;
}.

(** What [on_messages_stream] yields. *)
Inductive StreamItem :=
  | YEvent (e : AgentEvent)
  | YResponse (r : Response).

Definition is_YResponse (i : StreamItem) : bool :=
  match i with YResponse _ => true | YEvent _ => false end.

Definition is_tool_call_event (i : StreamItem) : bool :=
  match i with
  | YEvent (ToolCallRequestEvent _ _ _) => true
  | YEvent (ToolCallExecutionEvent _ _) => true
  | _ => false
  end.

(** [CreateResult]: what [ChatCompletionClient.create] returns. *)
Record CreateResult := mkCreateResult {
  cr_content : ModelContent;
  cr_usage : RequestUsage;
}.

(** [autogen_core.tools.Tool]: the three members the module uses. *)
Record Tool := mkTool {
  tool_name : string;
  run_json : PyValue -> PyM.M World PyValue;
  return_value_as_string : PyValue -> PyResult string;
}.

(** [autogen_agentchat.base.Handoff] *)
Record HandoffBase := mkHandoff {
  handoff_target : string;
  handoff_description : string;
  handoff_name : string;
  handoff_message : string;
}.

(** [ModelInfo]: the capability flags of the model client. *)
Record ModelInfo := mkModelInfo {
  function_calling : bool;
  vision : bool;
}.

(** [ChatCompletionClient]: its capability flags and [create], which
    receives the messages and the tools and acts on the world. *)
Record ChatCompletionClient := mkClient {
  model_info : ModelInfo;
  create : list LLMMessage -> list Tool -> PyM.M World CreateResult;
}.

(** [autogen_core.memory.Memory.update_context] receives the model
    context, may add to it, and returns the retrieved items ([None]
    for a falsy result). *)
Record Memory := mkMemory {
  update_context :
    PyM.M (list LLMMessage * World) (option (list MemoryContent));
}.

End DataModel.

(** ** [str.format] with keyword arguments

    The summary template is applied with [str.format(tool_name=...,
    arguments=..., result=...)].  The scanner below follows Python's on
    literal text, the escapes [{{] and [}}], and replacement fields that
    are a plain keyword name; every keyword value is a [str], which such
    a field inserts unchanged.  A field that names a positional argument
    (empty or all digits) or uses a conversion, a format specification,
    an attribute or an index is beyond this fragment: the remainder of
    the template, from the opening brace of that field, goes to
    [beyond], which stands for what Python produces there. *)
Module StrFormat.

Inductive State :=
  | Literal
  | AfterOpen (from_brace : string)
  | AfterClose
  | FieldName (from_brace : string) (name : string).

Inductive FieldChar := EndOfField | OpenInField | BeyondFragment | NameChar.

Definition classify (c : ascii) : FieldChar :=
  if Ascii.eqb c "}" then EndOfField
  else if Ascii.eqb c "{" then OpenInField
  else if Ascii.eqb c "!" || Ascii.eqb c ":" || Ascii.eqb c "["
          || Ascii.eqb c "." then BeyondFragment
  else NameChar.

Definition is_digit (c : ascii) : bool :=
  (48 <=? nat_of_ascii c)%nat && (nat_of_ascii c <=? 57)%nat.

Fixpoint all_digits (s : string) : bool :=
  match s with
  | EmptyString => true
  | String c s' => is_digit c && all_digits s'
  end.

Definition snoc (s : string) (c : ascii) : string :=
  s +:+ String c EmptyString.

Section Format.
Variable beyond : string -> gmap string string -> PyResult string.
Variable kwargs : gmap string string.

Fixpoint scan (st : State) (s : string) : PyResult string :=
  match s with
  | EmptyString =>
      match st with
      | Literal => Ok EmptyString
      | AfterOpen _ =>
          Raise (mkExc ValueError "Single '{' encountered in format string")
      | AfterClose =>
          Raise (mkExc ValueError "Single '}' encountered in format string")
      | FieldName _ _ =>
          Raise (mkExc ValueError "expected '}' before end of string")
      end
  | String c rest =>
      let in_field (from_brace name : string) : PyResult string :=
        match classify c with
        | EndOfField =>
            if all_digits name then beyond from_brace kwargs
            else match kwargs !! name with
                 | Some v => res_map (String.append v) (scan Literal rest)
                 | None => Raise (mkExc KeyError ("'" +:+ name +:+ "'"))
                 end
        | OpenInField =>
            Raise (mkExc ValueError "unexpected '{' in field name")
        | BeyondFragment => beyond from_brace kwargs
        | NameChar => scan (FieldName from_brace (snoc name c)) rest
        end in
      match st with
      | Literal =>
          if Ascii.eqb c "{" then scan (AfterOpen s) rest
          else if Ascii.eqb c "}" then scan AfterClose rest
          else res_map (String c) (scan Literal rest)
      | AfterOpen from_brace =>
          if Ascii.eqb c "{" then res_map (String "{") (scan Literal rest)
          else in_field from_brace EmptyString
      | AfterClose =>
          if Ascii.eqb c "}" then res_map (String "}") (scan Literal rest)
          else
            Raise (mkExc ValueError "Single '}' encountered in format string")
      | FieldName from_brace name => in_field from_brace name
      end
  end.

(** [template.format] applied to the keyword arguments [kwargs] *)
Definition format (template : string) : PyResult string :=
  scan Literal template.

End Format.
End StrFormat.

(** ** The agent *)

(** Code of the packages this module imports, taken as given. *)
Class Library `{Universe} := {
  (** [json.loads]: the parsed value, or [inl msg] when it raises a
      [JSONDecodeError] (a [ValueError]) whose [str] is [msg] *)
  json_loads : string -> string + PyValue;
  (** [tool.__doc__] of a callable *)
  callable_doc : Callable -> option string;
  (** [FunctionTool(tool, description=description)] *)
  FunctionTool : Callable -> string -> Tool;
  (** [HandoffBase(target=handoff)] for a handoff given as a string *)
  HandoffBase_of_target : string -> HandoffBase;
  (** [handoff.handoff_tool] *)
  handoff_tool : HandoffBase -> Tool;
  (** Modelled from the spec: the [handoff_tool] property of [Handoff]
      is not in this module; the specification's data model gives a
      handoff "an implicit associated tool name equal to the handoff's
      generated tool identifier", its [name]. *)
  handoff_tool_name : forall h, tool_name (handoff_tool h) = handoff_name h;
  (** [str.format] beyond the fragment of [StrFormat] *)
  format_beyond : string -> gmap string string -> PyResult string;
}.

Section Agent.
Context `{Library}.

(** [self] after construction.  Only [agent_model_context] changes
    afterwards; it holds the messages of the [ChatCompletionContext]. *)
Record AssistantAgent := mkAgent {
  agent_name : string;
  agent_description : string;
  agent_model_client : ChatCompletionClient;
  agent_memory : option (list Memory);
  agent_system_messages : list LLMMessage;
  agent_tools : list Tool;
  agent_handoff_tools : list Tool;
  agent_handoffs : gmap string HandoffBase;
  agent_model_context : list LLMMessage;
  agent_reflect_on_tool_use : bool;
  agent_tool_call_summary_format : string;
  agent_is_running : bool;
}.

(** *** Construction *)

(** An element of the [tools] argument. *)
Inductive ToolArg :=
  | ToolObject (t : Tool)
  | ToolCallable (f : Callable)
  | ToolUnsupported.

(** An element of the [handoffs] argument. *)
Inductive HandoffArg :=
  | HandoffStr (target : string)
  | HandoffObject (h : HandoffBase)
  | HandoffUnsupported.

(** The [memory] argument when it is not [None]: a [list], or another
    sequence. *)
Inductive MemoryArg :=
  | MemoryList (l : list Memory)
  | MemoryNotList.

Record InitArgs := mkInitArgs {
  arg_name : string;
  arg_model_client : ChatCompletionClient;
  arg_tools : option (list ToolArg);
  arg_handoffs : option (list HandoffArg);
  arg_model_context : option (list LLMMessage);
  arg_description : string;
  arg_system_message : option string;
  arg_reflect_on_tool_use : bool;
  arg_tool_call_summary_format : string;
  arg_memory : option MemoryArg;
}.

Definition init_memory (memory : option MemoryArg)
  : PyResult (option (list Memory)) :=
  match memory with
  | None => Ok None
  | Some (MemoryList l) => Ok (Some l)
  | Some MemoryNotList =>
      Raise (mkExc TypeError "Expected Memory, List[Memory], or None")
  end.

(** The body of [for tool in tools]. *)
Definition init_tool (tool : ToolArg) : PyResult Tool :=
  match tool with
  | ToolObject t => Ok t
  | ToolCallable f =>
      let description :=
        match callable_doc f with Some d => d | None => EmptyString end in
      Ok (FunctionTool f description)
  | ToolUnsupported => Raise (mkExc ValueError "Unsupported tool type")
  end.

Definition init_tools (client : ChatCompletionClient)
    (tools : option (list ToolArg)) : PyResult (list Tool) :=
  match tools with
  | None => Ok []
  | Some tools =>
      if negb (function_calling (model_info client)) then
        Raise (mkExc ValueError "The model does not support function calling.")
      else res_mapM init_tool tools
  end.

(** The body of [for handoff in handoffs]. *)
Definition init_handoff (handoff : HandoffArg) : PyResult HandoffBase :=
  match handoff with
  | HandoffStr target => Ok (HandoffBase_of_target target)
  | HandoffObject h => Ok h
  | HandoffUnsupported => Raise (mkExc ValueError "Unsupported handoff type")
  end.

Definition init_handoffs (client : ChatCompletionClient)
    (handoffs : option (list HandoffArg)) : PyResult (list HandoffBase) :=
  match handoffs with
  | None => Ok []
  | Some handoffs =>
      if negb (function_calling (model_info client)) then
        Raise (mkExc ValueError
          "The model does not support function calling, which is needed for handoffs.")
      else res_mapM init_handoff handoffs
  end.

(** [self._handoffs[handoff.name] = handoff] for each handoff in turn. *)
Definition handoffs_dict (hs : list HandoffBase) : gmap string HandoffBase :=
  foldl (fun d h => <[handoff_name h := h]> d) ∅ hs.

(** [len(names) != len(set(names))] *)
Definition has_duplicates (names : list string) : bool :=
  negb (length names =? size (list_to_set names : gset string))%nat.

(** [any(name in tool_names for name in handoff_tool_names)] *)
Definition any_in (handoff_tool_names tool_names : list string) : bool :=
  existsb (fun name => bool_decide (name ∈ tool_names)) handoff_tool_names.

(** [AssistantAgent.__init__].  The checks are those of the module
    itself.  The library code the constructor calls, [super().__init__]
    and the constructor of [FunctionTool], is taken to return, so that
    an agent is constructed here whenever the program constructs one;
    of the [model_context] argument the messages it holds are kept. *)
Definition __init__ (args : InitArgs) : PyResult AssistantAgent :=
  (memory <-! init_memory (arg_memory args) ;;
   let system_messages :=
     match arg_system_message args with
     | None => []
     | Some system_message => [SystemMessage system_message]
     end in
   tools <-! init_tools (arg_model_client args) (arg_tools args) ;;
   let tool_names := tool_name <$> tools in
   if has_duplicates tool_names then
     Raise (mkExc ValueError "Tool names must be unique")
   else
   handoffs <-! init_handoffs (arg_model_client args) (arg_handoffs args) ;;
   let handoff_tools := handoff_tool <$> handoffs in
   let handoff_tool_names := tool_name <$> handoff_tools in
   if has_duplicates handoff_tool_names then
     Raise (mkExc ValueError "Handoff names must be unique")
   else if any_in handoff_tool_names tool_names then
     Raise (mkExc ValueError "Handoff names must be unique from tool names.")
   else
     Ok {| agent_name := arg_name args;
           agent_description := arg_description args;
           agent_model_client := arg_model_client args;
           agent_memory := memory;
           agent_system_messages := system_messages;
           agent_tools := tools;
           agent_handoff_tools := handoff_tools;
           agent_handoffs := handoffs_dict handoffs;
           agent_model_context :=
             match arg_model_context args with
             | Some model_context => model_context
             | None => []
             end;
           agent_reflect_on_tool_use := arg_reflect_on_tool_use args;
           agent_tool_call_summary_format :=
             arg_tool_call_summary_format args;
           agent_is_running := false |})%py.

End Agent.

(** ** [asyncio.gather]

    The coroutines of a [gather] run concurrently and complete in an
    order the event loop decides.  [sched] is that decision: at each
    step its head, taken modulo the number of coroutines still pending,
    picks the one that runs to completion next (a schedule that runs out
    picks the first pending one).  Each result goes to the slot of the
    position its coroutine had in the argument list, and the results are
    returned in slot order.  With the default [return_exceptions=False]
    the first exception raised is propagated to the awaiting caller;
    the world returned with it is the one in which it was raised.  The
    coroutines still pending then are not cancelled and may act on the
    world later, which is not followed here. *)
Module Asyncio.
Section Gather.
Context {St A B : Type}.
Variable coroutine : A -> PyM.M St B.

Fixpoint gather_loop (n : nat) (pending : list (nat * A)) (sched : list nat)
    (slots : list (option B)) : PyM.M St (list (option B)) :=
  match n with
  | O => PyM.ret slots
  | S n' =>
      let pick := (hd 0 sched `mod` length pending)%nat in
      match pending !! pick with
      | None => PyM.ret slots
      | Some (i, x) =>
          PyM.bind (coroutine x) (fun b =>
            gather_loop n' (delete pick pending) (tl sched)
              (<[i := Some b]> slots))
      end
  end.

Definition gather (xs : list A) (sched : list nat) : PyM.M St (list B) :=
  PyM.bind
    (gather_loop (length xs) (imap pair xs) sched
       (replicate (length xs) None))
    (fun slots => PyM.ret (omap id slots)).

(** What the loop maintains, for the argument list [xs] and a relation
    [P] between an argument and a result: every position is still
    pending, or its slot holds a result of its own coroutine. *)
Definition gather_inv (xs : list A) (P : A -> B -> Prop)
    (pending : list (nat * A)) (slots : list (option B)) : Prop :=
  length slots = length xs /\
  (forall j i x, pending !! j = Some (i, x) -> xs !! i = Some x) /\
  (forall i x, xs !! i = Some x ->
     (exists j, pending !! j = Some (i, x)) \/
     (exists b, slots !! i = Some (Some b) /\ P x b)).

End Gather.
End Asyncio.

Section Turn.
Context `{Library}.

(** *** The state of a turn

    What a run of [on_messages_stream] reads and writes: the messages of
    the model context, the world of the collaborators, the local list
    [inner_messages], the items yielded so far, the warnings issued (each
    with the names it lists), and the arguments of the calls made to
    [model_client.create]. *)
Record TurnState := mkTurnState {
  st_model_context : list LLMMessage;
  st_world : World;
  st_inner_messages : list AgentEvent;
  st_yielded : list StreamItem;
  st_warnings : list (list string);
  st_create_calls : list (list LLMMessage * list Tool);
}.

Definition turn_start (model_context : list LLMMessage) (w : World)
  : TurnState :=
  mkTurnState model_context w [] [] [] [].

(** [await self._model_context.add_message(m)] *)
Definition add_message (m : LLMMessage) : PyM.M TurnState unit :=
  PyM.modify (fun s =>
    mkTurnState (st_model_context s ++ [m]) (st_world s)
      (st_inner_messages s) (st_yielded s) (st_warnings s)
      (st_create_calls s)).

(** [inner_messages.append(e)] *)
Definition inner_messages_append (e : AgentEvent) : PyM.M TurnState unit :=
  PyM.modify (fun s =>
    mkTurnState (st_model_context s) (st_world s)
      (st_inner_messages s ++ [e]) (st_yielded s) (st_warnings s)
      (st_create_calls s)).

(** [yield i] *)
Definition yield (i : StreamItem) : PyM.M TurnState unit :=
  PyM.modify (fun s =>
    mkTurnState (st_model_context s) (st_world s)
      (st_inner_messages s) (st_yielded s ++ [i]) (st_warnings s)
      (st_create_calls s)).

(** [warnings.warn(...)], listing [names] *)
Definition warn (names : list string) : PyM.M TurnState unit :=
  PyM.modify (fun s =>
    mkTurnState (st_model_context s) (st_world s)
      (st_inner_messages s) (st_yielded s) (st_warnings s ++ [names])
      (st_create_calls s)).

Definition set_world (w : World) (s : TurnState) : TurnState :=
  mkTurnState (st_model_context s) w
    (st_inner_messages s) (st_yielded s) (st_warnings s)
    (st_create_calls s).

Definition set_context_world (cw : list LLMMessage * World) (s : TurnState)
  : TurnState :=
  mkTurnState (fst cw) (snd cw)
    (st_inner_messages s) (st_yielded s) (st_warnings s)
    (st_create_calls s).

(** A collaborator acting on the world. *)
Definition in_world {A} (m : PyM.M World A) : PyM.M TurnState A :=
  PyM.zoom st_world set_world m.

(** [await self._model_client.create(llm_messages, tools=tools, ...)] *)
Definition model_client_create (self : AssistantAgent)
    (llm_messages : list LLMMessage) (tools : list Tool)
  : PyM.M TurnState CreateResult :=
  (PyM.modify (fun s =>
     mkTurnState (st_model_context s) (st_world s)
       (st_inner_messages s) (st_yielded s) (st_warnings s)
       (st_create_calls s ++ [(llm_messages, tools)])) ;;;
   in_world (create (agent_model_client self) llm_messages tools))%py.

(** *** [_execute_tool_call] *)

Definition _execute_tool_call (self : AssistantAgent)
    (tool_call : FunctionCall) : PyM.M World FunctionExecutionResult :=
  PyM.try_except_Exception
    (match agent_tools self ++ agent_handoff_tools self with
     | [] => PyM.raise (mkExc ValueError "No tools are available.")
     | registry =>
         match
           find (fun t => String.eqb (tool_name t) (fc_name tool_call))
             registry
         with
         | None =>
             PyM.raise (mkExc ValueError
               ("The tool '" +:+ fc_name tool_call +:+ "' is not available."))
         | Some tool =>
             (arguments <-
                PyM.lift
                  match json_loads (fc_arguments tool_call) with
                  | inl msg => Raise (mkExc ValueError msg)
                  | inr v => Ok v
                  end ;;
              result <- run_json tool arguments ;;
              result_as_str <- PyM.lift (return_value_as_string tool result) ;;
              PyM.ret (mkFER result_as_str (fc_id tool_call)))%py
         end
     end)
    (fun e =>
       PyM.ret (mkFER ("Error: " +:+ exc_str e) (fc_id tool_call))).

(** *** The phases of [on_messages_stream] *)

(** Add messages to the model context. *)
Definition add_messages_to_context (self : AssistantAgent)
    (messages : list ChatMessage) : PyM.M TurnState unit :=
  PyM.for_each messages (fun msg =>
    if is_MultiModalMessage msg
       && negb (vision (model_info (agent_model_client self)))
    then PyM.raise (mkExc ValueError "The model does not support vision.")
    else add_message (UserMessage (chat_content msg) (chat_source msg))).

(** Update the model context with memory content.  [if self._memory]
    holds for a non-empty list; the loop over an empty one does nothing. *)
Definition update_model_context_with_memory (self : AssistantAgent)
  : PyM.M TurnState unit :=
  PyM.for_each (default [] (agent_memory self)) (fun memory =>
    (update_context_result <-
       PyM.zoom (fun s => (st_model_context s, st_world s)) set_context_world
         (update_context memory) ;;
     match update_context_result with
     | Some results =>
         if (0 <? length results)%nat then
           let memory_query_event_msg :=
             MemoryQueryEvent results (agent_name self) in
           inner_messages_append memory_query_event_msg ;;;
           yield (YEvent memory_query_event_msg)
         else PyM.ret tt
     | None => PyM.ret tt
     end)%py).

(** Detect handoff requests: the handoffs of the calls whose name is a
    key of [self._handoffs], in call order. *)
Definition detect_handoffs (self : AssistantAgent)
    (calls : list FunctionCall) : list HandoffBase :=
  omap (fun call => agent_handoffs self !! fc_name call) calls.

(** The keyword arguments of one summary. *)
Definition summary_kwargs (call : FunctionCall)
    (result : FunctionExecutionResult) : gmap string string :=
  <["tool_name" := fc_name call]>
    (<["arguments" := fc_arguments call]>
       (<["result" := fer_content result]> ∅)).

(** The loop [for i in range(len(tool_call_msg.content))]; an index
    outside either list raises [IndexError]. *)
Definition tool_call_summaries (self : AssistantAgent)
    (calls : list FunctionCall) (results : list FunctionExecutionResult)
  : PyResult (list string) :=
  res_mapM (fun i =>
      match calls !! i, results !! i with
      | Some call, Some result =>
          StrFormat.format format_beyond (summary_kwargs call result)
            (agent_tool_call_summary_format self)
      | _, _ => Raise (mkExc OtherException "list index out of range")
      end)
    (seq 0 (length calls)).

Definition newline : string := String (ascii_of_nat 10) EmptyString.

(** *** [on_messages_stream]

    [sched] is the completion order of the tool calls (see [Asyncio]).
    The calls to [event_logger.debug] are left out. *)
Definition on_messages_stream (self : AssistantAgent)
    (messages : list ChatMessage) (sched : list nat)
  : PyM.M TurnState unit :=
  (add_messages_to_context self messages ;;;
   update_model_context_with_memory self ;;;
   (* Generate an inference result based on the current model context. *)
   s <- PyM.get ;;
   let llm_messages := agent_system_messages self ++ st_model_context s in
   result <-
     model_client_create self llm_messages
       (agent_tools self ++ agent_handoff_tools self) ;;
   (* Add the response to the model context. *)
   add_message (AssistantMessage (cr_content result) (agent_name self)) ;;;
   match cr_content result with
   | Text content =>
       s <- PyM.get ;;
       yield (YResponse
         {| chat_message :=
              TextMessage content (agent_name self) (Some (cr_usage result));
            inner_messages := st_inner_messages s |})
   | Calls calls =>
       (* Process tool calls. *)
       let tool_call_msg :=
         ToolCallRequestEvent calls (agent_name self)
           (Some (cr_usage result)) in
       inner_messages_append tool_call_msg ;;;
       yield (YEvent tool_call_msg) ;;;
       (* Execute the tool calls. *)
       results <-
         in_world (Asyncio.gather (_execute_tool_call self) calls sched) ;;
       let tool_call_result_msg :=
         ToolCallExecutionEvent results (agent_name self) in
       add_message (FunctionExecutionResultMessage results) ;;;
       inner_messages_append tool_call_result_msg ;;;
       yield (YEvent tool_call_result_msg) ;;;
       (* Detect handoff requests. *)
       match detect_handoffs self calls with
       | handoff :: others =>
           match others with
           | [] => PyM.ret tt
           | _ :: _ => warn (handoff_name <$> (handoff :: others))
           end ;;;
           s <- PyM.get ;;
           yield (YResponse
             {| chat_message :=
                  HandoffMessage (handoff_message handoff)
                    (handoff_target handoff) (agent_name self) None;
                inner_messages := st_inner_messages s |})
       | [] =>
           if agent_reflect_on_tool_use self then
             (* Generate another inference result. *)
             s <- PyM.get ;;
             let llm_messages :=
               agent_system_messages self ++ st_model_context s in
             result <- model_client_create self llm_messages [] ;;
             match cr_content result with
             | Text content =>
                 add_message
                   (AssistantMessage (Text content) (agent_name self)) ;;;
                 s <- PyM.get ;;
                 yield (YResponse
                   {| chat_message :=
                        TextMessage content (agent_name self)
                          (Some (cr_usage result));
                      inner_messages := st_inner_messages s |})
             | Calls _ =>
                 (* assert isinstance(result.content, str) *)
                 PyM.raise (mkExc AssertionError EmptyString)
             end
           else
             (* Return tool call result as the response. *)
             summaries <- PyM.lift (tool_call_summaries self calls results) ;;
             let tool_call_summary := String.concat newline summaries in
             s <- PyM.get ;;
             yield (YResponse
               {| chat_message :=
                    ToolCallSummaryMessage tool_call_summary
                      (agent_name self) None;
                  inner_messages := st_inner_messages s |})
       end
   end)%py.

(** The [Response]s among the items of a stream, in order. *)
Definition responses (items : list StreamItem) : list Response :=
  omap (fun i => match i with YResponse r => Some r | _ => None end) items.

(** The first [Response] of the stream. *)
Definition first_response (items : list StreamItem) : option Response :=
  head (responses items).

(** [on_messages]: drain the stream up to its [Response]. *)
Definition on_messages (self : AssistantAgent) (messages : list ChatMessage)
    (sched : list nat) : PyM.M TurnState Response :=
  (on_messages_stream self messages sched ;;;
   s <- PyM.get ;;
   match first_response (st_yielded s) with
   | Some r => PyM.ret r
   | None =>
       PyM.raise (mkExc AssertionError
         "The stream should have returned the final result.")
   end)%py.

(** The agent after a turn: [self] with the model context the turn left. *)
Definition agent_after (self : AssistantAgent) (s : TurnState)
  : AssistantAgent :=
  mkAgent (agent_name self) (agent_description self)
    (agent_model_client self) (agent_memory self)
    (agent_system_messages self) (agent_tools self)
    (agent_handoff_tools self) (agent_handoffs self)
    (st_model_context s)
    (agent_reflect_on_tool_use self) (agent_tool_call_summary_format self)
    (agent_is_running self).

(** [on_reset] *)
Definition on_reset (self : AssistantAgent) : AssistantAgent :=
  mkAgent (agent_name self) (agent_description self)
    (agent_model_client self) (agent_memory self)
    (agent_system_messages self) (agent_tools self)
    (agent_handoff_tools self) (agent_handoffs self)
    []
    (agent_reflect_on_tool_use self) (agent_tool_call_summary_format self)
    (agent_is_running self).

End Turn.

(** ** Saving and loading the state *)

(** Modelled from the spec: [ChatCompletionContext.save_state],
    [ChatCompletionContext.load_state] and the pydantic model
    [AssistantAgentState] are not in this module.  The specification
    gives the context store persistence as "an opaque, structurally
    serializable blob representing the full ordered message sequence;
    save() -> blob, load(blob) must reconstruct message-for-message".
    [Blob] is that blob, [StateMapping] the mapping that
    [AssistantAgentState(llm_context=blob).model_dump()] returns and
    [model_validate] reads back. *)
Class Persistence `{Universe} := {
  Blob : Type;
  context_save_state : list LLMMessage -> Blob;
  context_load_state : Blob -> PyResult (list LLMMessage);
  context_round_trip :
    forall messages,
      context_load_state (context_save_state messages) = Ok messages;
  StateMapping : Type;
  model_dump : Blob -> StateMapping;
  model_validate : StateMapping -> PyResult Blob;
  model_round_trip :
    forall llm_context,
      model_validate (model_dump llm_context) = Ok llm_context;
}.

Section State.
Context `{Library} `{!Persistence}.

(** [save_state] *)
Definition save_state (self : AssistantAgent) : StateMapping :=
  let model_context_state := context_save_state (agent_model_context self) in
  model_dump model_context_state.

(** [load_state]: the agent with the loaded model context. *)
Definition load_state (self : AssistantAgent) (state : StateMapping)
  : PyResult AssistantAgent :=
  (llm_context <-! model_validate state ;;
   messages <-! context_load_state llm_context ;;
   Ok (mkAgent (agent_name self) (agent_description self)
         (agent_model_client self) (agent_memory self)
         (agent_system_messages self) (agent_tools self)
         (agent_handoff_tools self) (agent_handoffs self)
         messages
         (agent_reflect_on_tool_use self)
         (agent_tool_call_summary_format self)
         (agent_is_running self)))%py.

End State.

(** ** Notions the statements use *)

Section Notions.
Context `{Library}.

(** The names of the supported elements of [tools]. *)
Definition arg_tool_names (args : InitArgs) : list string :=
  omap (fun tool =>
          match init_tool tool with
          | Ok t => Some (tool_name t)
          | Raise _ => None
          end)
    (default [] (arg_tools args)).

(** The names of the handoff tools of the supported elements of
    [handoffs]. *)
Definition arg_handoff_tool_names (args : InitArgs) : list string :=
  omap (fun handoff =>
          match init_handoff handoff with
          | Ok h => Some (tool_name (handoff_tool h))
          | Raise _ => None
          end)
    (default [] (arg_handoffs args)).

(** The combined registry that [_execute_tool_call] searches. *)
Definition registry (self : AssistantAgent) : list Tool :=
  agent_tools self ++ agent_handoff_tools self.

(** [next((t for t in registry if t.name == name), None)] *)
Definition resolve (self : AssistantAgent) (name : string) : option Tool :=
  find (fun t => String.eqb (tool_name t) name) (registry self).

(** The failures of one tool call that [_execute_tool_call] meets when
    it runs in world [w]: the name does not resolve, the arguments do
    not parse, the tool raises an [Exception], or the conversion of its
    return value does. *)
Inductive call_failure (self : AssistantAgent) (tool_call : FunctionCall)
    (w : World) : Prop :=
  | name_unresolved :
      resolve self (fc_name tool_call) = None ->
      call_failure self tool_call w
  | arguments_unparsable tool msg :
      resolve self (fc_name tool_call) = Some tool ->
      json_loads (fc_arguments tool_call) = inl msg ->
      call_failure self tool_call w
  | execution_raises tool arguments e w' :
      resolve self (fc_name tool_call) = Some tool ->
      json_loads (fc_arguments tool_call) = inr arguments ->
      run_json tool arguments w = (Raise e, w') ->
      is_Exception e = true ->
      call_failure self tool_call w
  | conversion_raises tool arguments result e w' :
      resolve self (fc_name tool_call) = Some tool ->
      json_loads (fc_arguments tool_call) = inr arguments ->
      run_json tool arguments w = (Ok result, w') ->
      return_value_as_string tool result = Raise e ->
      is_Exception e = true ->
      call_failure self tool_call w.

(** No tool of the registry raises anything but an [Exception]: no
    cancellation or interrupt reaches the turn through a tool. *)
Definition raises_only_Exception (self : AssistantAgent) : Prop :=
  forall tool, tool ∈ registry self ->
    (forall arguments w e w',
       run_json tool arguments w = (Raise e, w') -> is_Exception e = true) /\
    (forall result e,
       return_value_as_string tool result = Raise e -> is_Exception e = true).

(** A turn state with another model context. *)
Definition with_model_context (model_context : list LLMMessage)
    (s : TurnState) : TurnState :=
  mkTurnState model_context (st_world s) (st_inner_messages s)
    (st_yielded s) (st_warnings s) (st_create_calls s).

(** [isinstance(i, MemoryQueryEvent)] for a yielded item *)
Definition is_memory_query_event (i : StreamItem) : bool :=
  match i with YEvent (MemoryQueryEvent _ _) => true | _ => false end.

(** [s'] is [s] after memory providers ran: apart from the model context
    and the world, only [MemoryQueryEvent]s were added, to both
    [inner_messages] and the stream. *)
Definition memory_extends (s s' : TurnState) : Prop :=
  st_create_calls s' = st_create_calls s /\
  st_warnings s' = st_warnings s /\
  exists events,
    st_inner_messages s' = st_inner_messages s ++ events /\
    st_yielded s' = st_yielded s ++ (YEvent <$> events) /\
    Forall (fun e => is_memory_query_event (YEvent e) = true) events.

(** The state in which the first inference result has been received and
    stored: [s] is the state before the call, [w] the world after it. *)
Definition after_inference (self : AssistantAgent) (s : TurnState)
    (tools : list Tool) (result : CreateResult) (w : World) : TurnState :=
  mkTurnState
    (st_model_context s ++
       [AssistantMessage (cr_content result) (agent_name self)])
    w (st_inner_messages s) (st_yielded s) (st_warnings s)
    (st_create_calls s ++
       [(agent_system_messages self ++ st_model_context s, tools)]).

(** The two events of a tool-execution phase. *)
Definition tool_events (self : AssistantAgent) (result : CreateResult)
    (calls : list FunctionCall) (results : list FunctionExecutionResult)
  : list AgentEvent :=
  [ToolCallRequestEvent calls (agent_name self) (Some (cr_usage result));
   ToolCallExecutionEvent results (agent_name self)].

(** The state in which the tool calls of the first inference result have
    been executed and recorded: [s] is the state before the inference
    call, [w] the world after the phase. *)
Definition after_tools (self : AssistantAgent) (s : TurnState)
    (result : CreateResult) (calls : list FunctionCall)
    (results : list FunctionExecutionResult) (w : World) : TurnState :=
  mkTurnState
    (st_model_context s ++
       [AssistantMessage (Calls calls) (agent_name self);
        FunctionExecutionResultMessage results])
    w
    (st_inner_messages s ++ tool_events self result calls results)
    (st_yielded s ++ (YEvent <$> tool_events self result calls results))
    (st_warnings s)
    (st_create_calls s ++
       [(agent_system_messages self ++ st_model_context s,
         agent_tools self ++ agent_handoff_tools self)]).

(** The state in which the reflection inference has returned: [s] is the
    state [after_tools], [w] the world after the call. *)
Definition after_reflection (self : AssistantAgent) (s : TurnState)
    (w : World) : TurnState :=
  mkTurnState (st_model_context s) w (st_inner_messages s) (st_yielded s)
    (st_warnings s)
    (st_create_calls s ++
       [(agent_system_messages self ++ st_model_context s, [])]).

(** A state after one more item was yielded. *)
Definition with_yielded (item : StreamItem) (s : TurnState) : TurnState :=
  mkTurnState (st_model_context s) (st_world s) (st_inner_messages s)
    (st_yielded s ++ [item]) (st_warnings s) (st_create_calls s).

(** A run that returns normally having yielded one [Response], last. *)
Definition completes_with (run : PyResult unit * TurnState)
    (response : Response) : Prop :=
  run.1 = Ok tt /\
  responses (st_yielded run.2) = [response] /\
  last (st_yielded run.2) = Some (YResponse response).

(** The names that are handoff tool names of the agent. *)
Definition handoff_tool_names (self : AssistantAgent) : list string :=
  tool_name <$> agent_handoff_tools self.

End Notions.

(** ** A concrete environment

    A small instance of the environment, on which the statements below
    are exercised: the world counts the tool runs, Python values are
    strings, [json.loads] accepts the texts that open an object, and a
    model client answers from a script, the n-th answer after n
    assistant messages in the context. *)
Module Demo.

#[global] Instance universe : Universe := {|
  World := nat;
  PyValue := string;
  Callable := string;
  MemoryContent := string;
  Image := string;
|}.

Definition tool_returning (name value : string) : Tool :=
  mkTool name (fun _ w => (Ok value, S w)) (fun v => Ok v).

Definition tool_raising (name : string) (e : PyExc) : Tool :=
  mkTool name (fun _ w => (Raise e, S w)) (fun v => Ok v).

#[global] Instance library : Library := {|
  json_loads s :=
    if String.prefix "{" s then inr s
    else inl "Expecting value: line 1 column 1 (char 0)";
  callable_doc _ := None;
  FunctionTool f _ := tool_returning f f;
  HandoffBase_of_target target :=
    mkHandoff target ("Handoff to " +:+ target) ("transfer_to_" +:+ target)
      ("Transferred to " +:+ target);
  handoff_tool h :=
    mkTool (handoff_name h) (fun _ w => (Ok (handoff_message h), w))
      (fun v => Ok v);
  handoff_tool_name _ := eq_refl;
  format_beyond _ _ := Raise (mkExc ValueError "unsupported format string");
|}.

#[global] Instance persistence : Persistence := {|
  Blob := list LLMMessage;
  context_save_state messages := messages;
  context_load_state blob := Ok blob;
  context_round_trip messages := eq_refl;
  StateMapping := string * list LLMMessage;
  model_dump llm_context := ("AssistantAgentState", llm_context);
  model_validate state := Ok (snd state);
  model_round_trip llm_context := eq_refl;
|}.

Fixpoint count_assistant (messages : list LLMMessage) : nat :=
  match messages with
  | [] => 0
  | AssistantMessage _ _ :: rest => S (count_assistant rest)
  | _ :: rest => count_assistant rest
  end.

Definition scripted (info : ModelInfo) (answers : list ModelContent)
  : ChatCompletionClient :=
  mkClient info (fun messages _ w =>
    (Ok (mkCreateResult
           (nth (count_assistant messages) answers (Text EmptyString))
           (mkUsage 10 5)), w)).

Definition capable : ModelInfo := mkModelInfo true true.
Definition no_vision : ModelInfo := mkModelInfo true false.

Definition get_time : Tool := tool_returning "get_time" "12:00".
Definition broken : Tool :=
  tool_raising "broken" (mkExc OtherException "boom").

Definition remembering (fact : string) : Memory :=
  mkMemory (fun cw => (Ok (Some [fact]), (cw.1 ++ [SystemMessage fact], cw.2))).

Definition args (client : ChatCompletionClient)
    (tools : list ToolArg) (handoffs : list HandoffArg)
    (reflect : bool) (template : string) (memory : list Memory) : InitArgs :=
  mkInitArgs "assistant" client (Some tools) (Some handoffs) None
    "An agent that provides assistance with ability to use tools."
    (Some "You are a helpful AI assistant.")
    reflect template (Some (MemoryList memory)).

(** The agent a successful construction returns. *)
Definition constructed (a : InitArgs) : AssistantAgent :=
  match __init__ a with
  | Ok self => self
  | Raise _ =>
      mkAgent EmptyString EmptyString (scripted capable []) None [] [] [] ∅
        [] false EmptyString false
  end.

Definition call (id name : string) : FunctionCall :=
  mkFunctionCall id "{}" name.

Definition user_text (content : string) : ChatMessage :=
  TextMessage content "user" None.

Definition picture_parts : list (string + Image) :=
  [inl "look"; inr "image.png"].

Definition picture (source : string) : ChatMessage :=
  MultiModalMessage picture_parts source None.

(** *** A turn, phase by phase

    A scenario is an agent, a batch and a completion order; the turn
    starts from an empty model context in world 0.  The definitions
    below are the intermediate values of its run. *)
Record Scenario := mkScenario {
  sc_args : InitArgs;
  sc_messages : list ChatMessage;
  sc_sched : list nat;
}.

(** The start of every scenario. *)
Definition start : TurnState := turn_start [] 0.

(** A state with an earlier message, and a batch of three variants. *)
Definition resumed : TurnState := turn_start [SystemMessage "earlier"] 0.

Definition mixed_batch : list ChatMessage :=
  [TextMessage "hi" "user" (Some (mkUsage 3 0));
   picture "bob";
   HandoffMessage "over to you" "assistant" "carol" None].

Definition sc_self (sc : Scenario) : AssistantAgent :=
  constructed (sc_args sc).

Definition sc_s0 (sc : Scenario) : TurnState :=
  (add_messages_to_context (sc_self sc) (sc_messages sc) (turn_start [] 0)).2.

Definition sc_s1 (sc : Scenario) : TurnState :=
  (update_model_context_with_memory (sc_self sc) (sc_s0 sc)).2.

Definition sc_inference (sc : Scenario) : PyResult CreateResult * World :=
  create (agent_model_client (sc_self sc))
    (agent_system_messages (sc_self sc) ++ st_model_context (sc_s1 sc))
    (agent_tools (sc_self sc) ++ agent_handoff_tools (sc_self sc))
    (st_world (sc_s1 sc)).

Definition result_of (r : PyResult CreateResult) : CreateResult :=
  match r with
  | Ok result => result
  | Raise _ => mkCreateResult (Text EmptyString) (mkUsage 0 0)
  end.

Definition sc_result (sc : Scenario) : CreateResult :=
  result_of (sc_inference sc).1.

Definition sc_calls (sc : Scenario) : list FunctionCall :=
  match cr_content (sc_result sc) with
  | Calls calls => calls
  | Text _ => []
  end.

Definition sc_execution (sc : Scenario)
  : PyResult (list FunctionExecutionResult) * World :=
  Asyncio.gather (_execute_tool_call (sc_self sc)) (sc_calls sc)
    (sc_sched sc) (sc_inference sc).2.

Definition sc_results (sc : Scenario) : list FunctionExecutionResult :=
  match (sc_execution sc).1 with
  | Ok results => results
  | Raise _ => []
  end.

Definition sc_reflection (sc : Scenario) : PyResult CreateResult * World :=
  create (agent_model_client (sc_self sc))
    (agent_system_messages (sc_self sc) ++
       st_model_context
         (after_tools (sc_self sc) (sc_s1 sc) (sc_result sc) (sc_calls sc)
            (sc_results sc) (sc_execution sc).2))
    [] (sc_execution sc).2.

Definition sc_run (sc : Scenario) : PyResult unit * TurnState :=
  on_messages_stream (sc_self sc) (sc_messages sc) (sc_sched sc)
    (turn_start [] 0).

(** Scenario A: no tools, the model answers "Paris"; one memory provider. *)
Definition paris : Scenario :=
  mkScenario
    (args (scripted capable [Text "Paris"]) [] [] false "{result}"
       [remembering "Paris is in France."])
    [user_text "What is the capital of France?"] [].

(** Scenario B: one tool [get_time] returning "12:00", no reflection. *)
Definition time_summary : Scenario :=
  mkScenario
    (args (scripted capable [Calls [call "c1" "get_time"]])
       [ToolObject get_time] [] false "{result}" [])
    [user_text "What is the current time?"] [].

(** Scenario C: handoffs to agentA and agentB requested in that order,
    the first with arguments that do not parse. *)
Definition two_handoffs : Scenario :=
  mkScenario
    (args
       (scripted capable
          [Calls [call "c1" "get_time";
                  mkFunctionCall "c2" "oops" "transfer_to_agentA";
                  call "c3" "transfer_to_agentB"]])
       [ToolObject get_time] [HandoffStr "agentA"; HandoffStr "agentB"]
       false "{result}" [])
    [user_text "Pass me on."] [2; 0; 1]%nat.

(** Scenario D: a tool that raises, an unknown tool, unparsable
    arguments, completing last to first. *)
Definition failures : Scenario :=
  mkScenario
    (args
       (scripted capable
          [Calls [call "c1" "get_time"; call "c2" "broken";
                  call "c3" "missing";
                  mkFunctionCall "c4" "oops" "get_time"]])
       [ToolObject get_time; ToolObject broken] [] false "{result}" [])
    [user_text "Try everything."] [3; 2; 1; 0]%nat.

(** Reflection: the second inference answers with text. *)
Definition reflective : Scenario :=
  mkScenario
    (args
       (scripted capable [Calls [call "c1" "get_time"]; Text "It is 12:00."])
       [ToolObject get_time] [] true "{result}" [])
    [user_text "What is the current time?"] [].

(** A multi-modal message after a text message, for a model without
    vision. *)
Definition unseen_image : Scenario :=
  mkScenario
    (args (scripted no_vision [Text "ok"]) [] [] false "{result}" [])
    [TextMessage "hi" "user" (Some (mkUsage 3 0));
     picture "user"] [].

End Demo.

(** ** Further notions: the rest of the module *)

(** The classes of [ChatMessage], as [produced_message_types] lists
    them. *)
Inductive ChatMessageType :=
  | TextMessageType
  | MultiModalMessageType
  | HandoffMessageType
  | ToolCallSummaryMessageType.

Section MoreNotions.
Context `{Library}.

(** [type(m)] *)
Definition message_type (m : ChatMessage) : ChatMessageType :=
  match m with
  | TextMessage _ _ _ => TextMessageType
  | MultiModalMessage _ _ _ => MultiModalMessageType
  | HandoffMessage _ _ _ _ => HandoffMessageType
  | ToolCallSummaryMessage _ _ _ => ToolCallSummaryMessageType
  end.

(** [produced_message_types]: a dictionary and a list are truthy when
    they are not empty. *)
Definition produced_message_types (self : AssistantAgent)
  : list ChatMessageType :=
  let message_types := [TextMessageType] in
  let message_types :=
    if (size (agent_handoffs self) =? 0)%nat then message_types
    else message_types ++ [HandoffMessageType] in
  let message_types :=
    match agent_tools self with
    | [] => message_types
    | _ :: _ => message_types ++ [ToolCallSummaryMessageType]
    end in
  message_types.

(** What [_execute_tool_call] returns for a call whose name does not
    resolve: the description of the [ValueError] it raises and catches. *)
Definition unavailable (self : AssistantAgent) (tool_call : FunctionCall)
  : FunctionExecutionResult :=
  mkFER
    ("Error: " +:+
       match registry self with
       | [] => "No tools are available."
       | _ :: _ => "The tool '" +:+ fc_name tool_call +:+ "' is not available."
       end)
    (fc_id tool_call).

(** Every memory provider of the agent only appends to the model
    context it is given. *)
Definition memory_appends (self : AssistantAgent) : Prop :=
  forall memory, memory ∈ default [] (agent_memory self) ->
  forall cw r cw',
    update_context memory cw = (r, cw') ->
    exists added, cw'.1 = cw.1 ++ added.

(** The state in which an inference call has raised: [s] is the state
    before the call, [w] the world after it. *)
Definition after_failed_inference (self : AssistantAgent) (s : TurnState)
    (tools : list Tool) (w : World) : TurnState :=
  mkTurnState (st_model_context s) w (st_inner_messages s) (st_yielded s)
    (st_warnings s)
    (st_create_calls s ++
       [(agent_system_messages self ++ st_model_context s, tools)]).

(** The state in which the tool-execution phase has raised: the request
    event is out, the results are not. *)
Definition during_tools (self : AssistantAgent) (s : TurnState)
    (result : CreateResult) (calls : list FunctionCall) (w : World)
  : TurnState :=
  let request :=
    ToolCallRequestEvent calls (agent_name self) (Some (cr_usage result)) in
  mkTurnState
    (st_model_context s ++ [AssistantMessage (Calls calls) (agent_name self)])
    w
    (st_inner_messages s ++ [request])
    (st_yielded s ++ [YEvent request])
    (st_warnings s)
    (st_create_calls s ++
       [(agent_system_messages self ++ st_model_context s,
         agent_tools self ++ agent_handoff_tools self)]).

(** A state after the handoff warning, when there is one. *)
Definition with_handoff_warning (handoffs : list HandoffBase)
    (s : TurnState) : TurnState :=
  mkTurnState (st_model_context s) (st_world s) (st_inner_messages s)
    (st_yielded s)
    (st_warnings s ++
       match handoffs with
       | _ :: _ :: _ => [handoff_name <$> handoffs]
       | _ => []
       end)
    (st_create_calls s).

(** The first inference call of a turn, from the state [s1] that
    ingestion and memory augmentation reached. *)
Definition first_inference (self : AssistantAgent) (s1 : TurnState)
  : PyResult CreateResult * World :=
  create (agent_model_client self)
    (agent_system_messages self ++ st_model_context s1)
    (agent_tools self ++ agent_handoff_tools self) (st_world s1).

(** The paths of [on_messages_stream] from a state [s], each with the
    result and the state it ends in. *)
Inductive turn_path (self : AssistantAgent) (messages : list ChatMessage)
    (sched : list nat) (s : TurnState)
  : PyResult unit * TurnState -> Prop :=
  | path_ingestion_raises e s0 :
      add_messages_to_context self messages s = (Raise e, s0) ->
      turn_path self messages sched s (Raise e, s0)
  | path_memory_raises e s0 s1 :
      add_messages_to_context self messages s = (Ok tt, s0) ->
      update_model_context_with_memory self s0 = (Raise e, s1) ->
      turn_path self messages sched s (Raise e, s1)
  | path_inference_raises e s0 s1 w :
      add_messages_to_context self messages s = (Ok tt, s0) ->
      update_model_context_with_memory self s0 = (Ok tt, s1) ->
      first_inference self s1 = (Raise e, w) ->
      turn_path self messages sched s
        (Raise e,
         after_failed_inference self s1
           (agent_tools self ++ agent_handoff_tools self) w)
  | path_text s0 s1 result w content :
      add_messages_to_context self messages s = (Ok tt, s0) ->
      update_model_context_with_memory self s0 = (Ok tt, s1) ->
      first_inference self s1 = (Ok result, w) ->
      cr_content result = Text content ->
      turn_path self messages sched s
        (Ok tt,
         with_yielded
           (YResponse
              {| chat_message :=
                   TextMessage content (agent_name self)
                     (Some (cr_usage result));
                 inner_messages := st_inner_messages s1 |})
           (after_inference self s1
              (agent_tools self ++ agent_handoff_tools self) result w))
  | path_tools_raise s0 s1 result w calls e w3 :
      add_messages_to_context self messages s = (Ok tt, s0) ->
      update_model_context_with_memory self s0 = (Ok tt, s1) ->
      first_inference self s1 = (Ok result, w) ->
      cr_content result = Calls calls ->
      Asyncio.gather (_execute_tool_call self) calls sched w
        = (Raise e, w3) ->
      turn_path self messages sched s
        (Raise e, during_tools self s1 result calls w3)
  | path_handoff s0 s1 result w calls results w3 handoff others :
      add_messages_to_context self messages s = (Ok tt, s0) ->
      update_model_context_with_memory self s0 = (Ok tt, s1) ->
      first_inference self s1 = (Ok result, w) ->
      cr_content result = Calls calls ->
      Asyncio.gather (_execute_tool_call self) calls sched w
        = (Ok results, w3) ->
      detect_handoffs self calls = handoff :: others ->
      turn_path self messages sched s
        (Ok tt,
         with_yielded
           (YResponse
              {| chat_message :=
                   HandoffMessage (handoff_message handoff)
                     (handoff_target handoff) (agent_name self) None;
                 inner_messages :=
                   st_inner_messages s1 ++
                     tool_events self result calls results |})
           (with_handoff_warning (handoff :: others)
              (after_tools self s1 result calls results w3)))
  | path_summary s0 s1 result w calls results w3 summaries :
      add_messages_to_context self messages s = (Ok tt, s0) ->
      update_model_context_with_memory self s0 = (Ok tt, s1) ->
      first_inference self s1 = (Ok result, w) ->
      cr_content result = Calls calls ->
      Asyncio.gather (_execute_tool_call self) calls sched w
        = (Ok results, w3) ->
      detect_handoffs self calls = [] ->
      agent_reflect_on_tool_use self = false ->
      tool_call_summaries self calls results = Ok summaries ->
      turn_path self messages sched s
        (Ok tt,
         with_yielded
           (YResponse
              {| chat_message :=
                   ToolCallSummaryMessage (String.concat newline summaries)
                     (agent_name self) None;
                 inner_messages :=
                   st_inner_messages s1 ++
                     tool_events self result calls results |})
           (after_tools self s1 result calls results w3))
  | path_summary_raises s0 s1 result w calls results w3 e :
      add_messages_to_context self messages s = (Ok tt, s0) ->
      update_model_context_with_memory self s0 = (Ok tt, s1) ->
      first_inference self s1 = (Ok result, w) ->
      cr_content result = Calls calls ->
      Asyncio.gather (_execute_tool_call self) calls sched w
        = (Ok results, w3) ->
      detect_handoffs self calls = [] ->
      agent_reflect_on_tool_use self = false ->
      tool_call_summaries self calls results = Raise e ->
      turn_path self messages sched s
        (Raise e, after_tools self s1 result calls results w3)
  | path_reflection_raises s0 s1 result w calls results w3 e w4 :
      add_messages_to_context self messages s = (Ok tt, s0) ->
      update_model_context_with_memory self s0 = (Ok tt, s1) ->
      first_inference self s1 = (Ok result, w) ->
      cr_content result = Calls calls ->
      Asyncio.gather (_execute_tool_call self) calls sched w
        = (Ok results, w3) ->
      detect_handoffs self calls = [] ->
      agent_reflect_on_tool_use self = true ->
      create (agent_model_client self)
        (agent_system_messages self ++
           st_model_context (after_tools self s1 result calls results w3))
        [] w3 = (Raise e, w4) ->
      turn_path self messages sched s
        (Raise e,
         after_reflection self
           (after_tools self s1 result calls results w3) w4)
  | path_reflection_text s0 s1 result w calls results w3 result2 w4 content :
      add_messages_to_context self messages s = (Ok tt, s0) ->
      update_model_context_with_memory self s0 = (Ok tt, s1) ->
      first_inference self s1 = (Ok result, w) ->
      cr_content result = Calls calls ->
      Asyncio.gather (_execute_tool_call self) calls sched w
        = (Ok results, w3) ->
      detect_handoffs self calls = [] ->
      agent_reflect_on_tool_use self = true ->
      create (agent_model_client self)
        (agent_system_messages self ++
           st_model_context (after_tools self s1 result calls results w3))
        [] w3 = (Ok result2, w4) ->
      cr_content result2 = Text content ->
      turn_path self messages sched s
        (Ok tt,
         with_yielded
           (YResponse
              {| chat_message :=
                   TextMessage content (agent_name self)
                     (Some (cr_usage result2));
                 inner_messages :=
                   st_inner_messages s1 ++
                     tool_events self result calls results |})
           (with_model_context
              (st_model_context
                 (after_tools self s1 result calls results w3) ++
                 [AssistantMessage (Text content) (agent_name self)])
              (after_reflection self
                 (after_tools self s1 result calls results w3) w4)))
  | path_reflection_not_text s0 s1 result w calls results w3 result2 w4
      calls2 :
      add_messages_to_context self messages s = (Ok tt, s0) ->
      update_model_context_with_memory self s0 = (Ok tt, s1) ->
      first_inference self s1 = (Ok result, w) ->
      cr_content result = Calls calls ->
      Asyncio.gather (_execute_tool_call self) calls sched w
        = (Ok results, w3) ->
      detect_handoffs self calls = [] ->
      agent_reflect_on_tool_use self = true ->
      create (agent_model_client self)
        (agent_system_messages self ++
           st_model_context (after_tools self s1 result calls results w3))
        [] w3 = (Ok result2, w4) ->
      cr_content result2 = Calls calls2 ->
      turn_path self messages sched s
        (Raise (mkExc AssertionError EmptyString),
         after_reflection self
           (after_tools self s1 result calls results w3) w4).

End MoreNotions.


(** ** Further scenarios

    Turns that stop before their [Response], agents without tools, and
    other templates. *)
Module DemoStops.

Definition failing_client (e : PyExc) : ChatCompletionClient :=
  mkClient Demo.capable (fun _ _ w => (Raise e, w)).

Definition failing_memory (e : PyExc) : Memory :=
  mkMemory (fun cw => (Raise e, cw)).

Definition store_offline : PyExc := mkExc OtherException "store offline".
Definition rate_limit : PyExc := mkExc OtherException "rate limit".
Definition cancelled_error : PyExc := mkExc BaseExceptionOnly EmptyString.

(** A tool whose run is cancelled. *)
Definition slow : Tool := Demo.tool_raising "slow" cancelled_error.

Definition one_call : list ModelContent :=
  [Calls [Demo.call "c1" "get_time"]].

(** A memory provider raises. *)
Definition memory_fails : Demo.Scenario :=
  Demo.mkScenario
    (Demo.args (Demo.scripted Demo.capable [Text "Paris"]) [] [] false
       "{result}" [failing_memory store_offline])
    [Demo.user_text "What is the capital of France?"] [].

(** The model client raises. *)
Definition inference_fails : Demo.Scenario :=
  Demo.mkScenario
    (Demo.args (failing_client rate_limit) [ToolObject Demo.get_time] []
       false "{result}" [])
    [Demo.user_text "What is the current time?"] [].

(** The second of two tool runs is cancelled. *)
Definition cancellation : Demo.Scenario :=
  Demo.mkScenario
    (Demo.args
       (Demo.scripted Demo.capable
          [Calls [Demo.call "c1" "get_time"; Demo.call "c2" "slow"]])
       [ToolObject Demo.get_time; ToolObject slow] [] false "{result}" [])
    [Demo.user_text "What is the current time?"] [].

(** An agent built without tools and handoffs, whose model requests
    calls all the same. *)
Definition no_registry : Demo.Scenario :=
  Demo.mkScenario
    (mkInitArgs "assistant"
       (Demo.scripted Demo.capable
          [Calls [Demo.call "c1" "get_time";
                  Demo.call "c2" "transfer_to_agentA"]])
       None None None "An agent without tools." None false "{result}" None)
    [Demo.user_text "What is the current time?"] [1; 0]%nat.

(** A template with a field that is no keyword of the summary. *)
Definition bad_template : Demo.Scenario :=
  Demo.mkScenario
    (Demo.args (Demo.scripted Demo.capable one_call)
       [ToolObject Demo.get_time] [] false "{output}" [])
    [Demo.user_text "What is the current time?"] [].

(** The template of the class documentation. *)
Definition documented : Demo.Scenario :=
  Demo.mkScenario
    (Demo.args (Demo.scripted Demo.capable one_call)
       [ToolObject Demo.get_time] [] false "{tool_name}: {result}" [])
    [Demo.user_text "What is the current time?"] [].

(** The model answers with an empty list of calls. *)
Definition empty_calls : Demo.Scenario :=
  Demo.mkScenario
    (Demo.args (Demo.scripted Demo.capable [Calls []])
       [ToolObject Demo.get_time] [] false "{result}" [])
    [Demo.user_text "What is the current time?"] [].

End DemoStops.
(** * Properties *)

(** ** The monad *)

Lemma bind_Ok {S A B} (m : PyM.M S A) (k : A -> PyM.M S B) s a s' :
  m s = (Ok a, s') -> PyM.bind m k s = k a s'.
Proof. intros E. unfold PyM.bind. by rewrite E. Qed.

Lemma bind_Raise {S A B} (m : PyM.M S A) (k : A -> PyM.M S B) s e s' :
  m s = (Raise e, s') -> PyM.bind m k s = (Raise e, s').
Proof. intros E. unfold PyM.bind. by rewrite E. Qed.

Lemma bind_inv_Ok {S A B} (m : PyM.M S A) (k : A -> PyM.M S B) s b s' :
  PyM.bind m k s = (Ok b, s') ->
  exists a s1, m s = (Ok a, s1) /\ k a s1 = (Ok b, s').
Proof.
  unfold PyM.bind. destruct (m s) as [[a|e] s1]; [eauto | discriminate].
Qed.

(** ** [asyncio.gather] keeps positions *)

Section GatherFacts.
Context {St A B : Type}.
Variable coroutine : A -> PyM.M St B.
Variable xs : list A.

(** The slots that are all filled are the results. *)
Lemma omap_id_filled (P : A -> B -> Prop) (slots : list (option B)) :
  length slots = length xs ->
  (forall i x, xs !! i = Some x ->
     exists b, slots !! i = Some (Some b) /\ P x b) ->
  Forall2 P xs (omap id slots).
Proof.
  revert slots. induction xs as [|x l IH]; intros [|o slots] Hlen Hall;
    simplify_eq/=; [constructor|].
  destruct (Hall 0 x eq_refl) as (b & Hb & HP). simplify_eq/=.
  constructor; [done|].
  apply IH; [done|]. intros i y Hy. exact (Hall (S i) y Hy).
Qed.

Section Loop.
Variable P : A -> B -> Prop.
Hypothesis coroutine_P :
  forall x s b s', x ∈ xs -> coroutine x s = (Ok b, s') -> P x b.

Lemma gather_inv_start :
  Asyncio.gather_inv xs P (imap pair xs) (replicate (length xs) None).
Proof.
  split; [by rewrite length_replicate|]. split.
  - intros j i x. rewrite list_lookup_imap.
    destruct (xs !! j) eqn:E; intros; simplify_eq/=. done.
  - intros i x Hx. left. exists i. rewrite list_lookup_imap, Hx. done.
Qed.

Lemma gather_inv_step pending slots pick i x b :
  Asyncio.gather_inv xs P pending slots ->
  pending !! pick = Some (i, x) ->
  P x b ->
  Asyncio.gather_inv xs P (delete pick pending) (<[i := Some b]> slots).
Proof.
  intros (Hlen & Hpend & Hall) Hpick HP.
  assert (xs !! i = Some x) as Hi by eauto.
  assert (i < length slots)%nat as Hlt.
  { rewrite Hlen. by eapply lookup_lt_Some. }
  split; [by rewrite length_insert|]. split.
  - intros j i' x'. rewrite list_lookup_delete. eauto.
  - intros i' x' Hx'. destruct (decide (i' = i)) as [->|Hne].
    + right. exists b. rewrite list_lookup_insert_eq by done.
      by simplify_eq.
    + destruct (Hall i' x' Hx') as [(j & Hj)|(b' & Hb' & HP')].
      * left. assert (j <> pick) as Hjp by (intros ->; congruence).
        destruct (decide (j < pick)%nat).
        -- exists j. by rewrite list_lookup_delete_lt.
        -- exists (j - 1)%nat. rewrite list_lookup_delete_ge by lia.
           replace (S (j - 1)) with j by lia. done.
      * right. exists b'. by rewrite list_lookup_insert_ne.
Qed.

Lemma pick_pending (pending : list (nat * A)) (k : nat) :
  pending <> [] -> is_Some (pending !! (k `mod` length pending)%nat).
Proof.
  intros Hne. apply lookup_lt_is_Some.
  apply Nat.mod_upper_bound. destruct pending; simpl; [done|lia].
Qed.

Lemma gather_loop_ok n pending sched slots s res s' :
  n = length pending ->
  Asyncio.gather_inv xs P pending slots ->
  Asyncio.gather_loop coroutine n pending sched slots s = (Ok res, s') ->
  Asyncio.gather_inv xs P [] res.
Proof.
  revert pending sched slots s.
  induction n as [|n IH]; intros pending sched slots s Hn Hinv Hrun.
  - destruct pending; [|done]. simpl in Hrun.
    unfold PyM.ret in Hrun. by simplify_eq.
  - simpl in Hrun.
    destruct (pick_pending pending (hd 0%nat sched)) as [[i x] Hpick].
    { by destruct pending. }
    rewrite Hpick in Hrun.
    apply bind_inv_Ok in Hrun as (b & s1 & Hco & Hrest).
    eapply IH; [| |exact Hrest].
    + rewrite length_delete by eauto. lia.
    + eapply gather_inv_step; eauto.
      destruct Hinv as (_ & Hpend & _).
      eapply coroutine_P; [|exact Hco].
      eapply list_elem_of_lookup_2, Hpend, Hpick.
Qed.

(** The results of a [gather] that returns are in argument order: the
    result at each position is one its own coroutine returned. *)
Lemma gather_Forall2 sched s rs s' :
  Asyncio.gather coroutine xs sched s = (Ok rs, s') ->
  Forall2 P xs rs.
Proof.
  unfold Asyncio.gather. intros Hrun.
  apply bind_inv_Ok in Hrun as (slots & s1 & Hloop & Hret).
  unfold PyM.ret in Hret. simplify_eq.
  apply gather_loop_ok in Hloop as (Hlen & _ & Hall);
    [|by rewrite length_imap|apply gather_inv_start].
  apply omap_id_filled; [done|].
  intros i x Hx. destruct (Hall i x Hx) as [(j & Hj)|?]; [|done].
  by rewrite lookup_nil in Hj.
Qed.

End Loop.

(** A [gather] of coroutines that all return does return, whatever the
    completion order. *)
Lemma gather_loop_total n pending sched slots s :
  (forall x s, x ∈ xs -> exists b s', coroutine x s = (Ok b, s')) ->
  n = length pending ->
  (forall j i x, pending !! j = Some (i, x) -> xs !! i = Some x) ->
  exists res s',
    Asyncio.gather_loop coroutine n pending sched slots s = (Ok res, s').
Proof.
  intros Hco. revert pending sched slots s.
  induction n as [|n IH]; intros pending sched slots s Hn Hpend; simpl.
  - unfold PyM.ret. eauto.
  - destruct (pick_pending pending (hd 0%nat sched)) as [[i x] Hpick].
    { by destruct pending. }
    rewrite Hpick.
    destruct (Hco x s) as (b & s1 & Hb).
    { eapply list_elem_of_lookup_2, Hpend, Hpick. }
    erewrite bind_Ok by exact Hb.
    apply IH.
    + rewrite length_delete by eauto. lia.
    + intros j i' x'. rewrite list_lookup_delete. eauto.
Qed.

Lemma gather_total sched s :
  (forall x s, x ∈ xs -> exists b s', coroutine x s = (Ok b, s')) ->
  exists rs s', Asyncio.gather coroutine xs sched s = (Ok rs, s').
Proof.
  intros Hco. unfold Asyncio.gather.
  destruct (gather_loop_total (length xs) (imap pair xs) sched
              (replicate (length xs) None) s Hco) as (res & s' & Hres).
  - by rewrite length_imap.
  - intros j i x. rewrite list_lookup_imap.
    destruct (xs !! j) eqn:E; intros; simplify_eq/=. done.
  - erewrite bind_Ok by exact Hres. unfold PyM.ret. eauto.
Qed.

End GatherFacts.

(** ** Construction *)

Section InitFacts.
Context `{Library}.

Lemma list_to_set_size_le (l : list string) :
  (size (list_to_set l : gset string) <= length l)%nat.
Proof.
  induction l as [|x l IH]; [by rewrite list_to_set_nil, size_empty|].
  rewrite list_to_set_cons, size_union_alt.
  rewrite size_singleton.
  assert (size (list_to_set l ∖ {[x]} : gset string)
          <= size (list_to_set l : gset string))%nat as Hle.
  { apply subseteq_size. intros y Hy.
    by apply elem_of_difference in Hy as [Hy _]. }
  simpl. lia.
Qed.

Lemma has_duplicates_false_NoDup (names : list string) :
  has_duplicates names = false <-> NoDup names.
Proof.
  unfold has_duplicates. rewrite negb_false_iff, Nat.eqb_eq. split.
  - induction names as [|x l IH]; [constructor|].
    rewrite list_to_set_cons. simpl. intros Hsz.
    destruct (decide (x ∈ l)) as [Hin|Hnin].
    + exfalso.
      assert ({[x]} ∪ list_to_set l = (list_to_set l : gset string)) as E.
      { apply subseteq_union_1_L, singleton_subseteq_l.
        by apply elem_of_list_to_set. }
      rewrite E in Hsz. pose proof (list_to_set_size_le l). lia.
    + constructor; [done|]. apply IH.
      rewrite size_union in Hsz
        by (apply disjoint_singleton_l; by rewrite elem_of_list_to_set).
      rewrite size_singleton in Hsz. lia.
  - intros Hnd. symmetry. by apply size_list_to_set.
Qed.

Lemma has_duplicates_true (names : list string) :
  ~ NoDup names -> has_duplicates names = true.
Proof.
  intros Hnd. destruct (has_duplicates names) eqn:E; [done|].
  by apply has_duplicates_false_NoDup in E.
Qed.

Lemma any_in_true (hs ts : list string) :
  any_in hs ts = true <-> exists n, n ∈ hs /\ n ∈ ts.
Proof.
  unfold any_in. rewrite existsb_exists. split.
  - intros (n & Hn & Hd). exists n. apply bool_decide_eq_true in Hd.
    split; [by apply list_elem_of_In|done].
  - intros (n & Hn & Ht). exists n.
    split; [by apply list_elem_of_In|by apply bool_decide_eq_true].
Qed.

Lemma res_mapM_Ok_lookup {A B} (f : A -> PyResult B) xs ys :
  res_mapM f xs = Ok ys -> Forall2 (fun x y => f x = Ok y) xs ys.
Proof.
  revert ys. induction xs as [|x xs IH]; intros ys; simpl.
  - intros; simplify_eq. constructor.
  - destruct (f x) as [y|e] eqn:E; simpl; [|done].
    destruct (res_mapM f xs) as [ys'|e]; simpl; [|done].
    intros; simplify_eq. constructor; auto.
Qed.

Lemma res_mapM_Raise {A B} (f : A -> PyResult B) xs e :
  res_mapM f xs = Raise e -> exists x, x ∈ xs /\ f x = Raise e.
Proof.
  induction xs as [|x xs IH]; simpl; [done|].
  destruct (f x) as [y|e'] eqn:E; simpl.
  - destruct (res_mapM f xs) as [ys'|e'']; simpl; [done|].
    intros; simplify_eq. destruct IH as (x' & ? & ?); [done|].
    exists x'. split; [by right|done].
  - intros; simplify_eq. exists x. split; [by left|done].
Qed.

Lemma init_tools_names args tools :
  init_tools (arg_model_client args) (arg_tools args) = Ok tools ->
  tool_name <$> tools = arg_tool_names args.
Proof.
  unfold init_tools, arg_tool_names.
  destruct (arg_tools args) as [l|]; simpl; [|by intros; simplify_eq].
  destruct (negb _); [done|]. intros Hm.
  apply res_mapM_Ok_lookup in Hm.
  induction Hm as [|x y l l' Hxy _ IH]; simpl; [done|].
  rewrite Hxy. simpl. by f_equal.
Qed.

Lemma init_tools_ValueError client tools e :
  init_tools client tools = Raise e -> exc_class e = ValueError.
Proof.
  unfold init_tools. destruct tools as [l|]; [|done].
  destruct (negb _); [by intros; simplify_eq|].
  intros (x & _ & Hx)%res_mapM_Raise.
  destruct x; simpl in Hx; by simplify_eq.
Qed.

Lemma init_handoffs_names args handoffs :
  init_handoffs (arg_model_client args) (arg_handoffs args) = Ok handoffs ->
  tool_name <$> (handoff_tool <$> handoffs) = arg_handoff_tool_names args.
Proof.
  unfold init_handoffs, arg_handoff_tool_names.
  destruct (arg_handoffs args) as [l|]; simpl; [|by intros; simplify_eq].
  destruct (negb _); [done|]. intros Hm.
  apply res_mapM_Ok_lookup in Hm.
  induction Hm as [|x y l l' Hxy _ IH]; simpl; [done|].
  rewrite Hxy. simpl. by f_equal.
Qed.

Lemma init_handoffs_ValueError client handoffs e :
  init_handoffs client handoffs = Raise e -> exc_class e = ValueError.
Proof.
  unfold init_handoffs. destruct handoffs as [l|]; [|done].
  destruct (negb _); [by intros; simplify_eq|].
  intros (x & _ & Hx)%res_mapM_Raise.
  destruct x; simpl in Hx; by simplify_eq.
Qed.

(** C7. Construction with a duplicate among the tool names, a duplicate
    among the handoff tool names, or a name that is both a tool name and
    a handoff tool name fails: [__init__] raises and returns no agent.
    The exception is a [ValueError] (the specification's configuration
    error) unless the [memory] argument is itself rejected first, with a
    [TypeError]. *)
Theorem init_rejects_name_clashes (args : InitArgs) :
  ~ NoDup (arg_tool_names args) \/
  ~ NoDup (arg_handoff_tool_names args) \/
  (exists n, n ∈ arg_tool_names args /\ n ∈ arg_handoff_tool_names args) ->
  exists e,
    __init__ args = Raise e /\
    (arg_memory args <> Some MemoryNotList -> exc_class e = ValueError).
Proof.
  intros Hclash. unfold __init__.
  destruct (arg_memory args) as [[l|]|]; simpl;
    try (eexists; split; [reflexivity|congruence]).
  all: destruct (init_tools _ _) as [tools|e] eqn:Et; simpl;
    [|exists e; split; [done|intros _; by eapply init_tools_ValueError]].
  all: rewrite (init_tools_names _ _ Et).
  all: destruct (has_duplicates (arg_tool_names args)) eqn:Ed;
    [eexists; split; [reflexivity|done]|].
  all: apply has_duplicates_false_NoDup in Ed.
  all: destruct (init_handoffs _ _) as [hs|e] eqn:Eh; simpl;
    [|exists e; split; [done|intros _; by eapply init_handoffs_ValueError]].
  all: rewrite (init_handoffs_names _ _ Eh).
  all: destruct (has_duplicates (arg_handoff_tool_names args)) eqn:Ed';
    [eexists; split; [reflexivity|done]|].
  all: apply has_duplicates_false_NoDup in Ed'.
  all: destruct Hclash as [?|[?|(n & Hn1 & Hn2)]]; [done..|].
  all: assert (any_in (arg_handoff_tool_names args) (arg_tool_names args)
               = true) as -> by (apply any_in_true; eauto).
  all: eexists; split; [reflexivity|done].
Qed.

End InitFacts.

Lemma init_rejects_name_clashes_witness :
  exists e,
    __init__ (Demo.args (Demo.scripted Demo.capable [])
                [ToolObject Demo.get_time; ToolObject Demo.get_time] []
                false "{result}" []) = Raise e /\
    (Some (MemoryList []) <> Some MemoryNotList -> exc_class e = ValueError).
Proof.
  apply (init_rejects_name_clashes
           (Demo.args (Demo.scripted Demo.capable [])
              [ToolObject Demo.get_time; ToolObject Demo.get_time] []
              false "{result}" [])).
  left. vm_compute. intros Hnd. inversion Hnd as [|? ? Hnin _].
  apply Hnin. constructor.
Defined.

(** ** Ingestion *)

Section IngestFacts.
Context `{Library}.

Lemma with_model_context_id (s : TurnState) :
  with_model_context (st_model_context s) s = s.
Proof. by destruct s. Qed.

(** One step of the ingestion loop that stores its message. *)
Lemma add_message_run (m : LLMMessage) (s : TurnState) :
  add_message m s = (Ok tt, with_model_context (st_model_context s ++ [m]) s).
Proof. reflexivity. Qed.

(** Ingestion runs up to the first multi-modal message that the model
    cannot take, storing a user entry for every message before it. *)
Lemma add_messages_to_context_run self messages s :
  exists n,
    (n <= length messages)%nat /\
    (add_messages_to_context self messages s).2 =
      with_model_context
        (st_model_context s ++
           ((fun msg => UserMessage (chat_content msg) (chat_source msg))
              <$> take n messages)) s /\
    (is_Ok (add_messages_to_context self messages s).1 = true ->
     n = length messages).
Proof.
  revert s. induction messages as [|msg rest IH]; intros s.
  - exists 0%nat. simpl. rewrite app_nil_r, with_model_context_id. done.
  - unfold add_messages_to_context.
    change (PyM.for_each (msg :: rest) ?f) with
      (PyM.bind (f msg) (fun _ => PyM.for_each rest f)).
    unfold PyM.bind. cbv beta.
    destruct (is_MultiModalMessage msg && _) eqn:Emm.
    + exists 0%nat. simpl. rewrite app_nil_r, with_model_context_id.
      split; [lia|]. split; [done|]. discriminate.
    + rewrite add_message_run.
      destruct (IH (with_model_context
                      (st_model_context s ++
                         [UserMessage (chat_content msg) (chat_source msg)])
                      s)) as (n & Hn & Hst & Hok).
      exists (S n). split; [simpl; lia|].
      unfold add_messages_to_context in Hst, Hok.
      split.
      * rewrite Hst. simpl. by rewrite <- app_assoc.
      * intros Hr. simpl. f_equal. by apply Hok.
Qed.

Lemma add_messages_to_context_Ok self messages s s' :
  add_messages_to_context self messages s = (Ok tt, s') ->
  s' = with_model_context
         (st_model_context s ++
            ((fun msg => UserMessage (chat_content msg) (chat_source msg))
               <$> messages)) s.
Proof.
  intros Hrun.
  destruct (add_messages_to_context_run self messages s) as (n & _ & Hst & Hn).
  rewrite Hrun in Hst, Hn. simpl in Hst, Hn.
  rewrite Hn in Hst by done. by rewrite firstn_all in Hst.
Qed.

Lemma add_messages_to_context_vision_error self pre mm post s :
  vision (model_info (agent_model_client self)) = false ->
  is_MultiModalMessage mm = true ->
  Forall (fun m => is_MultiModalMessage m = false) pre ->
  add_messages_to_context self (pre ++ mm :: post) s =
    (Raise (mkExc ValueError "The model does not support vision."),
     with_model_context
       (st_model_context s ++
          ((fun msg => UserMessage (chat_content msg) (chat_source msg))
             <$> pre)) s).
Proof.
  intros Hv Hmm Hpre. revert s.
  induction Hpre as [|m pre Hm _ IH]; intros s.
  - unfold add_messages_to_context. simpl. unfold PyM.bind.
    rewrite Hmm, Hv. simpl. by rewrite app_nil_r, with_model_context_id.
  - unfold add_messages_to_context in *.
    change (PyM.for_each ((m :: pre) ++ mm :: post) ?f) with
      (PyM.bind (f m) (fun _ => PyM.for_each (pre ++ mm :: post) f)).
    unfold PyM.bind at 1. cbv beta.
    rewrite Hm. cbn [andb]. rewrite add_message_run, IH. simpl.
    by rewrite <- app_assoc.
Qed.

(** C10. Ingestion appends, for each message of the batch it reaches,
    a [UserMessage] built from the content and the source of the
    message alone, whatever the variant and the usage metadata of the
    message; when ingestion completes, it has reached every message. *)
Theorem ingestion_stores_user_entries (self : AssistantAgent)
    (messages : list ChatMessage) (s : TurnState) :
  exists n,
    (n <= length messages)%nat /\
    st_model_context (add_messages_to_context self messages s).2 =
      st_model_context s ++
        ((fun msg => UserMessage (chat_content msg) (chat_source msg))
           <$> take n messages) /\
    (is_Ok (add_messages_to_context self messages s).1 = true ->
     n = length messages).
Proof.
  destruct (add_messages_to_context_run self messages s)
    as (n & Hn & Hst & Hok).
  exists n. split; [done|]. split; [by rewrite Hst|done].
Qed.

End IngestFacts.

(** ** The phases of a turn *)

Section TurnFacts.
Context `{Library}.

Lemma memory_extends_refl s : memory_extends s s.
Proof.
  split; [done|]. split; [done|]. exists [].
  by rewrite !app_nil_r.
Qed.

Lemma memory_extends_context_world s cw :
  memory_extends s (set_context_world cw s).
Proof.
  split; [done|]. split; [done|]. exists [].
  by rewrite !app_nil_r.
Qed.

Lemma memory_extends_trans s1 s2 s3 :
  memory_extends s1 s2 -> memory_extends s2 s3 -> memory_extends s1 s3.
Proof.
  intros (Hc1 & Hw1 & ev1 & Hi1 & Hy1 & Hf1)
    (Hc2 & Hw2 & ev2 & Hi2 & Hy2 & Hf2).
  split; [congruence|]. split; [congruence|]. exists (ev1 ++ ev2).
  rewrite Hi2, Hi1, Hy2, Hy1, fmap_app, !app_assoc.
  split; [done|]. split; [done|]. by apply Forall_app.
Qed.

Lemma memory_loop_extends (self : AssistantAgent) (memories : list Memory)
    s r s' :
  PyM.for_each memories (fun memory =>
    (update_context_result <-
       PyM.zoom (fun s => (st_model_context s, st_world s)) set_context_world
         (update_context memory) ;;
     match update_context_result with
     | Some results =>
         if (0 <? length results)%nat then
           let memory_query_event_msg :=
             MemoryQueryEvent results (agent_name self) in
           inner_messages_append memory_query_event_msg ;;;
           yield (YEvent memory_query_event_msg)
         else PyM.ret tt
     | None => PyM.ret tt
     end)%py) s = (r, s') ->
  memory_extends s s'.
Proof.
  revert s. induction memories as [|memory rest IH]; intros s; simpl.
  - unfold PyM.ret. intros; simplify_eq. apply memory_extends_refl.
  - unfold PyM.bind at 1. unfold PyM.bind at 1. unfold PyM.zoom.
    destruct (update_context memory _) as [[[results|]|e] cw]; simpl.
    + destruct (0 <? length results)%nat; simpl.
      * intros Hrest. apply IH in Hrest.
        eapply memory_extends_trans; [|exact Hrest].
        split; [done|]. split; [done|].
        exists [MemoryQueryEvent results (agent_name self)].
        simpl. split; [done|]. split; [done|]. by repeat constructor.
      * intros Hrest. apply IH in Hrest.
        eapply memory_extends_trans; [|exact Hrest].
        apply memory_extends_context_world.
    + intros Hrest. apply IH in Hrest.
      eapply memory_extends_trans; [|exact Hrest].
      apply memory_extends_context_world.
    + intros; simplify_eq. apply memory_extends_context_world.
Qed.

Lemma memory_phase_extends self s r s' :
  update_model_context_with_memory self s = (r, s') -> memory_extends s s'.
Proof. apply memory_loop_extends. Qed.

(** From the start of a turn to the first inference call, only memory
    events are yielded, and nothing else is recorded. *)
Lemma before_inference self messages model_context w s0 s1 :
  add_messages_to_context self messages (turn_start model_context w)
    = (Ok tt, s0) ->
  update_model_context_with_memory self s0 = (Ok tt, s1) ->
  st_create_calls s1 = [] /\ st_warnings s1 = [] /\
  st_yielded s1 = YEvent <$> st_inner_messages s1 /\
  Forall (fun i => is_memory_query_event i = true) (st_yielded s1).
Proof.
  intros Hadd%add_messages_to_context_Ok
    (Hc & Hw & events & Hi & Hy & Hf)%memory_phase_extends.
  subst s0. simpl in *. rewrite Hc, Hw, Hy, Hi.
  repeat split; try done. by apply Forall_fmap.
Qed.

Lemma model_client_create_run self llm_messages tools s r w :
  create (agent_model_client self) llm_messages tools (st_world s) = (r, w) ->
  model_client_create self llm_messages tools s =
    (r, mkTurnState (st_model_context s) w (st_inner_messages s)
          (st_yielded s) (st_warnings s)
          (st_create_calls s ++ [(llm_messages, tools)])).
Proof.
  intros Hc. unfold model_client_create, PyM.bind, PyM.modify, in_world,
    PyM.zoom. simpl. by rewrite Hc.
Qed.

Lemma in_world_run {A} (m : PyM.M World A) s r w :
  m (st_world s) = (r, w) -> in_world m s = (r, set_world w s).
Proof. intros Hm. unfold in_world, PyM.zoom. by rewrite Hm. Qed.

(** Reduce the projections of the states a run builds, so that the
    terms stay small. *)
Ltac reduce_state :=
  cbn [st_model_context st_world st_inner_messages st_yielded st_warnings
       st_create_calls with_model_context set_world set_context_world
       fst snd].

Ltac reduce_state_in H :=
  cbn [st_model_context st_world st_inner_messages st_yielded st_warnings
       st_create_calls with_model_context set_world set_context_world
       fst snd] in H.

(** Run the turn up to the point where the first inference result is
    stored in the model context. *)
Ltac turn_to_inference Hadd Hmem Hcreate :=
  unfold on_messages_stream;
  rewrite (bind_Ok _ _ _ _ _ Hadd), (bind_Ok _ _ _ _ _ Hmem);
  unfold PyM.bind at 1, PyM.get at 1; cbv zeta;
  rewrite (bind_Ok _ _ _ _ _ (model_client_create_run _ _ _ _ _ _ Hcreate));
  rewrite (bind_Ok _ _ _ _ _ (add_message_run _ _));
  reduce_state.

Lemma responses_events (events : list AgentEvent) :
  responses (YEvent <$> events) = [].
Proof. induction events; simpl; auto. Qed.

Lemma responses_app (l1 l2 : list StreamItem) :
  responses (l1 ++ l2) = responses l1 ++ responses l2.
Proof. apply omap_app. Qed.

Lemma memory_events_not_tool_calls (items : list StreamItem) :
  Forall (fun i => is_memory_query_event i = true) items ->
  Forall (fun i => is_tool_call_event i = false) items.
Proof.
  intros Hm. eapply Forall_impl; [exact Hm|].
  intros [[]|]; simpl; congruence.
Qed.

(** C5. When the first inference call returns plain text, the turn
    yields exactly one [Response], a [TextMessage] with that text
    unchanged, as the last item of the stream; no tool-call request or
    execution event is yielded; and the turn ends after that single
    inference call, with the answer stored in the model context. *)
Theorem text_answer_ends_turn (self : AssistantAgent)
    (messages : list ChatMessage) (sched : list nat)
    (model_context : list LLMMessage) (w : World)
    (s0 s1 : TurnState) (result : CreateResult) (w' : World)
    (content : string) :
  add_messages_to_context self messages (turn_start model_context w)
    = (Ok tt, s0) ->
  update_model_context_with_memory self s0 = (Ok tt, s1) ->
  create (agent_model_client self)
    (agent_system_messages self ++ st_model_context s1)
    (agent_tools self ++ agent_handoff_tools self) (st_world s1)
    = (Ok result, w') ->
  cr_content result = Text content ->
  exists s,
    on_messages_stream self messages sched (turn_start model_context w)
      = (Ok tt, s) /\
    responses (st_yielded s) =
      [ {| chat_message :=
             TextMessage content (agent_name self) (Some (cr_usage result));
           inner_messages := st_inner_messages s1 |} ] /\
    last (st_yielded s) =
      Some (YResponse
        {| chat_message :=
             TextMessage content (agent_name self) (Some (cr_usage result));
           inner_messages := st_inner_messages s1 |}) /\
    Forall (fun i => is_tool_call_event i = false) (st_yielded s) /\
    st_create_calls s =
      [(agent_system_messages self ++ st_model_context s1,
        agent_tools self ++ agent_handoff_tools self)] /\
    st_model_context s =
      st_model_context s1 ++
        [AssistantMessage (Text content) (agent_name self)].
Proof.
  intros Hadd Hmem Hcreate Hcontent.
  destruct (before_inference _ _ _ _ _ _ Hadd Hmem) as (Hc & Hw & Hy & Hf).
  eexists. split.
  { turn_to_inference Hadd Hmem Hcreate. rewrite Hcontent. reflexivity. }
  simpl. rewrite Hc. repeat split.
  - rewrite responses_app, Hy, responses_events. done.
  - by rewrite last_snoc.
  - apply Forall_app. split; [by apply memory_events_not_tool_calls|].
    by repeat constructor.
Qed.

(** ** One tool call *)

(** What [_execute_tool_call] returns, by the point where the call
    stops. *)
Lemma execute_tool_call_cases self tool_call w :
  match resolve self (fc_name tool_call) with
  | None =>
      exists msg,
        _execute_tool_call self tool_call w =
          (Ok (mkFER ("Error: " +:+ msg) (fc_id tool_call)), w)
  | Some tool =>
      match json_loads (fc_arguments tool_call) with
      | inl msg =>
          _execute_tool_call self tool_call w =
            (Ok (mkFER ("Error: " +:+ msg) (fc_id tool_call)), w)
      | inr arguments =>
          match run_json tool arguments w with
          | (Raise e, w') =>
              _execute_tool_call self tool_call w =
                (if is_Exception e
                 then Ok (mkFER ("Error: " +:+ exc_str e) (fc_id tool_call))
                 else Raise e, w')
          | (Ok result, w') =>
              match return_value_as_string tool result with
              | Ok result_as_str =>
                  _execute_tool_call self tool_call w =
                    (Ok (mkFER result_as_str (fc_id tool_call)), w')
              | Raise e =>
                  _execute_tool_call self tool_call w =
                    (if is_Exception e
                     then
                       Ok (mkFER ("Error: " +:+ exc_str e) (fc_id tool_call))
                     else Raise e, w')
              end
          end
      end
  end.
Proof.
  unfold resolve, registry, _execute_tool_call, PyM.try_except_Exception.
  destruct (agent_tools self ++ agent_handoff_tools self) as [|t l] eqn:Er.
  { simpl. eauto. }
  destruct (find _ (t :: l)) as [tool|] eqn:Ef; [|simpl; eauto].
  unfold PyM.bind, PyM.lift, PyM.ret.
  destruct (json_loads _) as [msg|arguments]; [done|].
  destruct (run_json tool arguments w) as [[result|e] w1];
    [|by destruct (is_Exception e)].
  destruct (return_value_as_string tool result) as [str|e]; [done|].
  by destruct (is_Exception e).
Qed.

Lemma resolve_in_registry self name tool :
  resolve self name = Some tool -> tool ∈ registry self.
Proof.
  unfold resolve. intros [Hin _]%find_some. by apply list_elem_of_In.
Qed.

(** Whatever [_execute_tool_call] returns carries the id of its call. *)
Lemma execute_tool_call_id self tool_call w r w' :
  _execute_tool_call self tool_call w = (Ok r, w') ->
  fer_call_id r = fc_id tool_call.
Proof.
  pose proof (execute_tool_call_cases self tool_call w) as Hc.
  destruct (resolve _ _) as [tool|].
  2:{ destruct Hc as (msg & ->). by intros; simplify_eq. }
  destruct (json_loads _); [rewrite Hc; by intros; simplify_eq|].
  destruct (run_json _ _ _) as [[result|e] w1].
  - destruct (return_value_as_string _ _) as [str|e]; rewrite Hc;
      [by intros; simplify_eq|].
    destruct (is_Exception e); by intros; simplify_eq.
  - rewrite Hc. destruct (is_Exception e); by intros; simplify_eq.
Qed.

(** With tools that raise nothing but [Exception]s, nothing leaves
    [_execute_tool_call] as an exception. *)
Lemma execute_tool_call_total self tool_call w :
  raises_only_Exception self ->
  exists r w', _execute_tool_call self tool_call w = (Ok r, w').
Proof.
  intros Hex.
  pose proof (execute_tool_call_cases self tool_call w) as Hc.
  destruct (resolve _ _) as [tool|] eqn:Er.
  2:{ destruct Hc as (msg & ->). eauto. }
  apply resolve_in_registry, Hex in Er as [Hrun Hconv].
  destruct (json_loads _); [rewrite Hc; eauto|].
  destruct (run_json _ _ _) as [[result|e] w1] eqn:Erun.
  - destruct (return_value_as_string _ _) as [str|e] eqn:Es; rewrite Hc;
      [eauto|].
    rewrite (Hconv _ _ Es). eauto.
  - rewrite Hc, (Hrun _ _ _ _ Erun). eauto.
Qed.

(** A failing call returns an error description, under its own id. *)
Lemma execute_tool_call_failure self tool_call w :
  call_failure self tool_call w ->
  exists msg w',
    _execute_tool_call self tool_call w =
      (Ok (mkFER ("Error: " +:+ msg) (fc_id tool_call)), w').
Proof.
  pose proof (execute_tool_call_cases self tool_call w) as Hc.
  intros [Hr|tool msg Hr Hj|tool arguments e w' Hr Hj Hrun He
          |tool arguments result e w' Hr Hj Hrun Hs He];
    rewrite Hr in Hc; try rewrite Hj in Hc; try rewrite Hrun in Hc;
    try rewrite Hs in Hc; try rewrite He in Hc; eauto.
  destruct Hc as (msg & ->). eauto.
Qed.

(** ** The tool-execution phase *)

(** What every result of the phase satisfies with respect to the request
    at its position. *)
Lemma execute_all_Forall2 self requests sched w results w' :
  Asyncio.gather (_execute_tool_call self) requests sched w
    = (Ok results, w') ->
  Forall2
    (fun tool_call r =>
       fer_call_id r = fc_id tool_call /\
       exists wi wi', _execute_tool_call self tool_call wi = (Ok r, wi'))
    requests results.
Proof.
  apply gather_Forall2. intros x s b s' _ Hx. split; [|eauto].
  by eapply execute_tool_call_id.
Qed.

(** C1. The results of the tool-execution phase are as many as the
    requests, and the result at each position carries the call id of the
    request at that position, for every completion order [sched]; and
    with tools that raise nothing but [Exception]s the phase does
    produce its results. *)
Theorem tool_results_match_requests (self : AssistantAgent)
    (requests : list FunctionCall) (sched : list nat) (w : World) :
  (forall results w',
     Asyncio.gather (_execute_tool_call self) requests sched w
       = (Ok results, w') ->
     length results = length requests /\
     forall i tool_call,
       requests !! i = Some tool_call ->
       fer_call_id <$> results !! i = Some (fc_id tool_call)) /\
  (raises_only_Exception self ->
   exists results w',
     Asyncio.gather (_execute_tool_call self) requests sched w
       = (Ok results, w')).
Proof.
  split.
  - intros results w' Hrun. apply execute_all_Forall2 in Hrun.
    split; [symmetry; by eapply Forall2_length|].
    intros i tool_call Hi.
    destruct (Forall2_lookup_l _ _ _ _ _ Hrun Hi) as (r & -> & Hid & _).
    simpl. by rewrite Hid.
  - intros Hex. apply gather_total. intros x s _.
    by apply execute_tool_call_total.
Qed.

(** ** After the tool-execution phase *)

Lemma bind_modify {S B} (f : S -> S) (k : unit -> PyM.M S B) s :
  PyM.bind (PyM.modify f) k s = k tt (f s).
Proof. reflexivity. Qed.

Lemma bind_get {S B} (k : S -> PyM.M S B) s :
  PyM.bind PyM.get k s = k s s.
Proof. reflexivity. Qed.

Lemma bind_ret {S A B} (a : A) (k : A -> PyM.M S B) s :
  PyM.bind (PyM.ret a) k s = k a s.
Proof. reflexivity. Qed.

(** Run the turn up to handoff detection. *)
Ltac turn_to_detection Hadd Hmem Hcreate Hcontent Hgather :=
  turn_to_inference Hadd Hmem Hcreate;
  rewrite Hcontent;
  unfold inner_messages_append, yield, add_message, warn;
  repeat (rewrite bind_modify; reduce_state);
  erewrite bind_Ok by (apply in_world_run; exact Hgather);
  reduce_state;
  repeat (rewrite bind_modify; reduce_state).

(** Compare the state a run reached with the one stated. *)
Ltac finish_turn :=
  unfold PyM.modify, PyM.ret, PyM.raise, with_yielded, after_reflection,
    after_tools, tool_events;
  reduce_state; rewrite ?app_nil_r, <- ?app_assoc; reduce_state;
  reflexivity.

(** The turn, when tool calls were requested and executed, continues
    from [after_tools] with the branch that handoff detection selects. *)
Lemma turn_handoff_branch self messages sched s s0 s1 result w' calls
    results w3 handoff others :
  add_messages_to_context self messages s = (Ok tt, s0) ->
  update_model_context_with_memory self s0 = (Ok tt, s1) ->
  create (agent_model_client self)
    (agent_system_messages self ++ st_model_context s1)
    (agent_tools self ++ agent_handoff_tools self) (st_world s1)
    = (Ok result, w') ->
  cr_content result = Calls calls ->
  Asyncio.gather (_execute_tool_call self) calls sched w'
    = (Ok results, w3) ->
  detect_handoffs self calls = handoff :: others ->
  on_messages_stream self messages sched s =
    let s3 := after_tools self s1 result calls results w3 in
    (Ok tt,
     mkTurnState (st_model_context s3) (st_world s3) (st_inner_messages s3)
       (st_yielded s3 ++
          [YResponse
             {| chat_message :=
                  HandoffMessage (handoff_message handoff)
                    (handoff_target handoff) (agent_name self) None;
                inner_messages := st_inner_messages s3 |}])
       (st_warnings s3 ++
          match others with
          | [] => []
          | _ :: _ => [handoff_name <$> (handoff :: others)]
          end)
       (st_create_calls s3)).
Proof.
  intros Hadd Hmem Hcreate Hcontent Hgather Hdetect.
  turn_to_detection Hadd Hmem Hcreate Hcontent Hgather.
  rewrite Hdetect. destruct others.
  - rewrite bind_ret, bind_get. reduce_state. finish_turn.
  - rewrite bind_modify, bind_get. reduce_state. finish_turn.
Qed.

Lemma turn_summary_branch self messages sched s s0 s1 result w' calls
    results w3 :
  add_messages_to_context self messages s = (Ok tt, s0) ->
  update_model_context_with_memory self s0 = (Ok tt, s1) ->
  create (agent_model_client self)
    (agent_system_messages self ++ st_model_context s1)
    (agent_tools self ++ agent_handoff_tools self) (st_world s1)
    = (Ok result, w') ->
  cr_content result = Calls calls ->
  Asyncio.gather (_execute_tool_call self) calls sched w'
    = (Ok results, w3) ->
  detect_handoffs self calls = [] ->
  agent_reflect_on_tool_use self = false ->
  on_messages_stream self messages sched s =
    let s3 := after_tools self s1 result calls results w3 in
    match tool_call_summaries self calls results with
    | Ok summaries =>
        (Ok tt,
         with_yielded
           (YResponse
              {| chat_message :=
                   ToolCallSummaryMessage (String.concat newline summaries)
                     (agent_name self) None;
                 inner_messages := st_inner_messages s3 |}) s3)
    | Raise e => (Raise e, s3)
    end.
Proof.
  intros Hadd Hmem Hcreate Hcontent Hgather Hdetect Hreflect.
  turn_to_detection Hadd Hmem Hcreate Hcontent Hgather.
  rewrite Hdetect, Hreflect. unfold PyM.bind at 1, PyM.lift.
  destruct (tool_call_summaries self calls results) as [summaries|e].
  - rewrite bind_get. reduce_state. finish_turn.
  - finish_turn.
Qed.

Lemma turn_reflection_branch self messages sched s s0 s1 result w' calls
    results w3 result2 w4 :
  add_messages_to_context self messages s = (Ok tt, s0) ->
  update_model_context_with_memory self s0 = (Ok tt, s1) ->
  create (agent_model_client self)
    (agent_system_messages self ++ st_model_context s1)
    (agent_tools self ++ agent_handoff_tools self) (st_world s1)
    = (Ok result, w') ->
  cr_content result = Calls calls ->
  Asyncio.gather (_execute_tool_call self) calls sched w'
    = (Ok results, w3) ->
  detect_handoffs self calls = [] ->
  agent_reflect_on_tool_use self = true ->
  create (agent_model_client self)
    (agent_system_messages self ++
       st_model_context (after_tools self s1 result calls results w3))
    [] w3 = (Ok result2, w4) ->
  on_messages_stream self messages sched s =
    let s4 :=
      after_reflection self (after_tools self s1 result calls results w3) w4
    in
    match cr_content result2 with
    | Text content =>
        (Ok tt,
         with_yielded
           (YResponse
              {| chat_message :=
                   TextMessage content (agent_name self)
                     (Some (cr_usage result2));
                 inner_messages := st_inner_messages s4 |})
           (with_model_context
              (st_model_context s4 ++
                 [AssistantMessage (Text content) (agent_name self)]) s4))
    | Calls _ => (Raise (mkExc AssertionError EmptyString), s4)
    end.
Proof.
  intros Hadd Hmem Hcreate Hcontent Hgather Hdetect Hreflect Hcreate2.
  turn_to_detection Hadd Hmem Hcreate Hcontent Hgather.
  rewrite Hdetect, Hreflect, bind_get. cbv zeta. reduce_state.
  unfold after_tools in Hcreate2. reduce_state_in Hcreate2.
  rewrite <- !app_assoc. cbn [app].
  erewrite bind_Ok
    by (apply model_client_create_run; reduce_state; exact Hcreate2).
  reduce_state.
  destruct (cr_content result2) as [content|calls2].
  - rewrite bind_modify, bind_get. reduce_state. finish_turn.
  - finish_turn.
Qed.

End TurnFacts.

(** ** The handoff registry of a constructed agent *)

Section RegistryFacts.
Context `{Library}.

Lemma handoffs_dict_snoc (hs : list HandoffBase) h :
  handoffs_dict (hs ++ [h]) = <[handoff_name h := h]> (handoffs_dict hs).
Proof. unfold handoffs_dict. by rewrite foldl_snoc. Qed.









End RegistryFacts.

(** ** The tool-call summary *)

Section SummaryFacts.
Context `{Library}.

Lemma res_mapM_Forall2 {A B} (f : A -> PyResult B) xs ys :
  Forall2 (fun x y => f x = Ok y) xs ys -> res_mapM f xs = Ok ys.
Proof.
  induction 1 as [|x y xs ys Hxy _ IH]; simpl; [done|].
  by rewrite Hxy, IH.
Qed.

Lemma res_mapM_fmap {A B C} (f : B -> PyResult C) (g : A -> B) xs :
  res_mapM f (g <$> xs) = res_mapM (fun x => f (g x)) xs.
Proof. induction xs as [|x xs IH]; csimpl; [done|]. by rewrite IH. Qed.

(** Indexing both lists over the range of the first visits the pairs in
    order, when the lists are equally long. *)
Lemma res_mapM_range_zip {A B C} (f : A -> B -> PyResult C) (e : PyExc)
    (xs : list A) (ys : list B) :
  length xs = length ys ->
  res_mapM (fun i =>
      match xs !! i, ys !! i with
      | Some x, Some y => f x y
      | _, _ => Raise e
      end) (seq 0 (length xs))
  = res_mapM (fun xy => f xy.1 xy.2) (zip xs ys).
Proof.
  revert ys. induction xs as [|x xs IH]; intros [|y ys] Hlen;
    simplify_eq/=; [done|].
  f_equal. rewrite <- fmap_S_seq, res_mapM_fmap. simpl.
  by rewrite IH.
Qed.

Lemma tool_call_summaries_zip self calls results :
  length calls = length results ->
  tool_call_summaries self calls results =
    res_mapM (fun cr =>
        StrFormat.format format_beyond (summary_kwargs cr.1 cr.2)
          (agent_tool_call_summary_format self))
      (zip calls results).
Proof.
  intros Hlen. unfold tool_call_summaries.
  by rewrite (res_mapM_range_zip
    (fun call result =>
       StrFormat.format format_beyond (summary_kwargs call result)
         (agent_tool_call_summary_format self)) _ _ _ Hlen).
Qed.

Lemma string_app_empty_r (s : string) : s +:+ EmptyString = s.
Proof.
  induction s as [|c s IH]; [done|].
  change (String c s +:+ EmptyString) with (String c (s +:+ EmptyString)).
  by rewrite IH.
Qed.

(** The three names a template may reference. *)
Lemma summary_kwargs_lookup call result :
  summary_kwargs call result !! "tool_name" = Some (fc_name call) /\
  summary_kwargs call result !! "arguments" = Some (fc_arguments call) /\
  summary_kwargs call result !! "result" = Some (fer_content result).
Proof.
  unfold summary_kwargs. split; [|split].
  - by rewrite lookup_insert_eq.
  - rewrite lookup_insert_ne by done. by rewrite lookup_insert_eq.
  - do 2 (rewrite lookup_insert_ne by done). by rewrite lookup_insert_eq.
Qed.



End SummaryFacts.

(** ** The claims about a turn *)

Section TurnClaims.
Context `{Library}.

Lemma first_multimodal (messages : list ChatMessage) :
  (exists m, m ∈ messages /\ is_MultiModalMessage m = true) ->
  exists pre mm post,
    messages = pre ++ mm :: post /\
    Forall (fun m => is_MultiModalMessage m = false) pre /\
    is_MultiModalMessage mm = true.
Proof.
  induction messages as [|m rest IH]; intros (x & Hin & Hx).
  - by apply elem_of_nil in Hin.
  - destruct (is_MultiModalMessage m) eqn:Em.
    + exists [], m, rest. by repeat split.
    + destruct IH as (pre & mm & post & -> & Hpre & Hmm).
      { apply elem_of_cons in Hin as [->|Hin]; [congruence|eauto]. }
      exists (m :: pre), mm, post. repeat split; [|done]. by constructor.
Qed.

(** C4, as the code has it. A batch that contains a multi-modal message,
    given to a model without vision, makes the turn raise the capability
    error during ingestion: no memory provider has run, no inference
    call was made and nothing was yielded.  The messages before the
    first multi-modal one have each been stored as a user entry by then,
    and nothing else in the state has changed; the store is as before
    the turn when the multi-modal message comes first. *)
Theorem vision_error_during_ingestion (self : AssistantAgent)
    (messages : list ChatMessage) (sched : list nat) (s : TurnState) :
  vision (model_info (agent_model_client self)) = false ->
  (exists m, m ∈ messages /\ is_MultiModalMessage m = true) ->
  exists pre mm post,
    messages = pre ++ mm :: post /\
    Forall (fun m => is_MultiModalMessage m = false) pre /\
    is_MultiModalMessage mm = true /\
    on_messages_stream self messages sched s =
      (Raise (mkExc ValueError "The model does not support vision."),
       with_model_context
         (st_model_context s ++
            ((fun msg => UserMessage (chat_content msg) (chat_source msg))
               <$> pre)) s) /\
    (pre = [] -> (on_messages_stream self messages sched s).2 = s).
Proof.
  intros Hv (pre & mm & post & -> & Hpre & Hmm)%first_multimodal.
  exists pre, mm, post. split; [done|]. split; [done|]. split; [done|].
  assert (on_messages_stream self (pre ++ mm :: post) sched s =
      (Raise (mkExc ValueError "The model does not support vision."),
       with_model_context
         (st_model_context s ++
            ((fun msg => UserMessage (chat_content msg) (chat_source msg))
               <$> pre)) s)) as Hrun.
  { unfold on_messages_stream.
    by rewrite (bind_Raise _ _ _ _ _
      (add_messages_to_context_vision_error _ _ _ _ _ Hv Hmm Hpre)). }
  split; [done|]. intros ->. rewrite Hrun. simpl.
  by rewrite app_nil_r, with_model_context_id.
Qed.

(** C2. A failing tool call -- its name does not resolve in the combined
    registry, its arguments do not parse, or the tool raises an
    [Exception] -- returns a result under its own call id whose content
    begins with "Error:"; nothing is raised.  With tools that raise
    nothing but [Exception]s, the phase returns a result for every
    request, each produced by the execution of the request at its
    position, and the turn goes on to its terminal [Response]: the
    handoff, the summary when the template formats, or the reflection
    when the model answers with text. *)
Theorem tool_failures_are_contained (self : AssistantAgent) :
  (forall tool_call w,
     call_failure self tool_call w ->
     exists content w',
       _execute_tool_call self tool_call w =
         (Ok (mkFER content (fc_id tool_call)), w') /\
       String.prefix "Error:" content = true) /\
  (raises_only_Exception self ->
   forall messages sched model_context w s0 s1 result w' calls,
     add_messages_to_context self messages (turn_start model_context w)
       = (Ok tt, s0) ->
     update_model_context_with_memory self s0 = (Ok tt, s1) ->
     create (agent_model_client self)
       (agent_system_messages self ++ st_model_context s1)
       (agent_tools self ++ agent_handoff_tools self) (st_world s1)
       = (Ok result, w') ->
     cr_content result = Calls calls ->
     exists results w3,
       Asyncio.gather (_execute_tool_call self) calls sched w'
         = (Ok results, w3) /\
       Forall2
         (fun tool_call r =>
            fer_call_id r = fc_id tool_call /\
            exists wi wi',
              _execute_tool_call self tool_call wi = (Ok r, wi') /\
              (call_failure self tool_call wi ->
               String.prefix "Error:" (fer_content r) = true))
         calls results /\
       let run :=
         on_messages_stream self messages sched (turn_start model_context w)
       in
       (detect_handoffs self calls <> [] ->
        exists response, completes_with run response) /\
       (detect_handoffs self calls = [] ->
        agent_reflect_on_tool_use self = false ->
        is_Ok (tool_call_summaries self calls results) = true ->
        exists response, completes_with run response) /\
       (detect_handoffs self calls = [] ->
        agent_reflect_on_tool_use self = true ->
        forall result2 w4 content,
          create (agent_model_client self)
            (agent_system_messages self ++
               st_model_context (after_tools self s1 result calls results w3))
            [] w3 = (Ok result2, w4) ->
          cr_content result2 = Text content ->
          exists response, completes_with run response)).
Proof.
  split.
  { intros tool_call w (msg & w' & ->)%execute_tool_call_failure.
    exists ("Error: " +:+ msg), w'. by split. }
  intros Hex messages sched model_context w s0 s1 result w' calls
    Hadd Hmem Hcreate Hcontent.
  destruct (gather_total (_execute_tool_call self) calls sched w')
    as (results & w3 & Hgather).
  { intros x s _. by apply execute_tool_call_total. }
  destruct (before_inference _ _ _ _ _ _ Hadd Hmem) as (Hc & Hw & Hy & Hf).
  exists results, w3. split; [done|]. split.
  { eapply Forall2_impl; [by eapply execute_all_Forall2|].
    intros tool_call r (Hid & wi & wi' & Hrun). split; [done|].
    exists wi, wi'. split; [done|].
    intros (msg & w'' & Hfail)%execute_tool_call_failure.
    rewrite Hrun in Hfail. by simplify_eq. }
  cbv zeta. split; [|split].
  - intros Hd. destruct (detect_handoffs self calls) as [|h others] eqn:Ed;
      [done|].
    rewrite (turn_handoff_branch _ _ _ _ _ _ _ _ _ _ _ _ _
               Hadd Hmem Hcreate Hcontent Hgather Ed).
    eexists. split; [done|]. simpl. split.
    + rewrite !responses_app, Hy, responses_events. done.
    + by rewrite last_snoc.
  - intros Hd Hr Hs.
    rewrite (turn_summary_branch _ _ _ _ _ _ _ _ _ _ _
               Hadd Hmem Hcreate Hcontent Hgather Hd Hr).
    cbv zeta. destruct (tool_call_summaries self calls results); [|done].
    eexists. split; [done|]. simpl. split.
    + rewrite !responses_app, Hy, responses_events. done.
    + by rewrite last_snoc.
  - intros Hd Hr result2 w4 content Hcreate2 Hcontent2.
    rewrite (turn_reflection_branch _ _ _ _ _ _ _ _ _ _ _ _ _
               Hadd Hmem Hcreate Hcontent Hgather Hd Hr Hcreate2).
    cbv zeta. rewrite Hcontent2.
    eexists. split; [done|]. simpl. split.
    + rewrite !responses_app, Hy, responses_events. done.
    + by rewrite last_snoc.
Qed.



(** C9. In a turn that reaches the reflection branch, a second inference
    call is made on the system messages followed by the model context
    as the tool phase left it, the assistant message with the calls and
    the execution results included, and with an empty list of tools.
    When its result is text, the turn ends with one [Response], a
    [TextMessage] with that text, and the text is stored in the model
    context; when it is not, the assertion fails and the turn raises
    [AssertionError] without a [Response]. *)
Theorem reflection_requires_text (self : AssistantAgent)
    (messages : list ChatMessage) (sched : list nat)
    (model_context : list LLMMessage) (w : World)
    (s0 s1 : TurnState) (result : CreateResult) (w' : World)
    (calls : list FunctionCall) (results : list FunctionExecutionResult)
    (w3 : World) (result2 : CreateResult) (w4 : World) :
  add_messages_to_context self messages (turn_start model_context w)
    = (Ok tt, s0) ->
  update_model_context_with_memory self s0 = (Ok tt, s1) ->
  create (agent_model_client self)
    (agent_system_messages self ++ st_model_context s1)
    (agent_tools self ++ agent_handoff_tools self) (st_world s1)
    = (Ok result, w') ->
  cr_content result = Calls calls ->
  Asyncio.gather (_execute_tool_call self) calls sched w'
    = (Ok results, w3) ->
  detect_handoffs self calls = [] ->
  agent_reflect_on_tool_use self = true ->
  create (agent_model_client self)
    (agent_system_messages self ++
       st_model_context (after_tools self s1 result calls results w3))
    [] w3 = (Ok result2, w4) ->
  let run :=
    on_messages_stream self messages sched (turn_start model_context w) in
  let augmented :=
    st_model_context s1 ++
      [AssistantMessage (Calls calls) (agent_name self);
       FunctionExecutionResultMessage results] in
  st_create_calls run.2 =
    [(agent_system_messages self ++ st_model_context s1,
      agent_tools self ++ agent_handoff_tools self);
     (agent_system_messages self ++ augmented, [])] /\
  match cr_content result2 with
  | Text content =>
      completes_with run
        {| chat_message :=
             TextMessage content (agent_name self) (Some (cr_usage result2));
           inner_messages :=
             st_inner_messages s1 ++ tool_events self result calls results |}
      /\ st_model_context run.2 =
           augmented ++ [AssistantMessage (Text content) (agent_name self)]
  | Calls _ =>
      run.1 = Raise (mkExc AssertionError EmptyString) /\
      responses (st_yielded run.2) = []
  end.
Proof.
  intros Hadd Hmem Hcreate Hcontent Hgather Hdetect Hreflect Hcreate2.
  destruct (before_inference _ _ _ _ _ _ Hadd Hmem) as (Hc & Hw & Hy & Hf).
  cbv zeta.
  rewrite (turn_reflection_branch _ _ _ _ _ _ _ _ _ _ _ _ _
             Hadd Hmem Hcreate Hcontent Hgather Hdetect Hreflect Hcreate2).
  cbv zeta. destruct (cr_content result2) as [content|calls2]; simpl;
    rewrite Hc; simpl.
  - split; [done|]. split; [|done]. split; [done|]. simpl. split.
    + rewrite !responses_app, Hy, responses_events. done.
    + by rewrite last_snoc.
  - split; [done|]. split; [done|].
    rewrite !responses_app, Hy, responses_events. done.
Qed.

End TurnClaims.

(** ** Saving and loading *)

(** C8. Loading, into any agent, the state that an agent saved gives an
    agent whose model context is, message for message and in order, the
    model context of the saving agent. *)
Theorem save_load_round_trip `{Library} `{!Persistence}
    (source target : AssistantAgent) :
  exists loaded,
    load_state target (save_state source) = Ok loaded /\
    agent_model_context loaded = agent_model_context source.
Proof.
  unfold load_state, save_state.
  rewrite model_round_trip. simpl. rewrite context_round_trip. simpl.
  eauto.
Qed.

(** ** The statements on the concrete scenarios *)

Lemma text_answer_ends_turn_witness :
  exists s,
    Demo.sc_run Demo.paris = (Ok tt, s) /\
    responses (st_yielded s) =
      [ {| chat_message :=
             TextMessage "Paris" "assistant" (Some (mkUsage 10 5));
           inner_messages :=
             [MemoryQueryEvent ["Paris is in France."] "assistant"] |} ] /\
    Forall (fun i => is_tool_call_event i = false) (st_yielded s) /\
    length (st_create_calls s) = 1%nat.
Proof.
  destruct (text_answer_ends_turn
              (Demo.sc_self Demo.paris) (Demo.sc_messages Demo.paris)
              (Demo.sc_sched Demo.paris) [] 0%nat
              (Demo.sc_s0 Demo.paris) (Demo.sc_s1 Demo.paris)
              (Demo.sc_result Demo.paris) (Demo.sc_inference Demo.paris).2
              "Paris")
    as (s & Hrun & Hresponses & _ & Hevents & Hcalls & _).
  - vm_compute. reflexivity.
  - vm_compute. reflexivity.
  - vm_compute. reflexivity.
  - vm_compute. reflexivity.
  - exists s. split; [exact Hrun|]. split; [exact Hresponses|].
    split; [exact Hevents|]. rewrite Hcalls. reflexivity.
Defined.

(** The tools of the concrete scenarios raise nothing but [Exception]s. *)
Lemma demo_failures_raise_only_Exception :
  raises_only_Exception (Demo.sc_self Demo.failures).
Proof.
  intros tool Hin. vm_compute in Hin.
  repeat (apply elem_of_cons in Hin as [->|Hin]);
    [| |by apply elem_of_nil in Hin].
  all: split; intros; simpl in *; by simplify_eq.
Qed.

Lemma tool_results_match_requests_witness :
  exists results w',
    Demo.sc_execution Demo.failures = (Ok results, w') /\
    length results = 4%nat /\
    fer_call_id <$> results !! 1%nat = Some "c2".
Proof.
  destruct (tool_results_match_requests
              (Demo.sc_self Demo.failures) (Demo.sc_calls Demo.failures)
              (Demo.sc_sched Demo.failures) (Demo.sc_inference Demo.failures).2)
    as [Hpartial Htotal].
  destruct (Htotal demo_failures_raise_only_Exception)
    as (results & w' & Hrun).
  destruct (Hpartial results w' Hrun) as [Hlen Hids].
  exists results, w'. split; [exact Hrun|]. split; [exact Hlen|].
  apply (Hids 1%nat (Demo.call "c2" "broken")). reflexivity.
Defined.

Lemma tool_failures_are_contained_witness :
  (exists content w',
     _execute_tool_call (Demo.sc_self Demo.failures)
       (Demo.call "c2" "broken") 0%nat
       = (Ok (mkFER content "c2"), w') /\
     String.prefix "Error:" content = true) /\
  exists response, completes_with (Demo.sc_run Demo.failures) response.
Proof.
  destruct (tool_failures_are_contained (Demo.sc_self Demo.failures))
    as [Hcall Hturn].
  split.
  - apply (Hcall (Demo.call "c2" "broken") 0%nat).
    apply (execution_raises _ _ _ Demo.broken "{}"
             (mkExc OtherException "boom") 1%nat);
      vm_compute; reflexivity.
  - destruct (Hturn demo_failures_raise_only_Exception
                (Demo.sc_messages Demo.failures) (Demo.sc_sched Demo.failures)
                [] 0%nat (Demo.sc_s0 Demo.failures) (Demo.sc_s1 Demo.failures)
                (Demo.sc_result Demo.failures)
                (Demo.sc_inference Demo.failures).2
                (Demo.sc_calls Demo.failures))
      as (results & w3 & Hrun & _ & _ & Hsummary & _);
      [vm_compute; reflexivity..|].
    apply Hsummary; [vm_compute; reflexivity..|].
    vm_compute in Hrun. injection Hrun as <- <-.
    vm_compute. reflexivity.
Defined.

(** C2 as stated does not hold: the execution of the registered tool
    [slow] raises a cancellation, which is no [Exception].  The
    exception leaves [_execute_tool_call] instead of becoming a result,
    the result of the other call of the batch is lost, and the turn
    raises without a [Response]. *)
Lemma cancellation_is_not_contained :
  resolve (Demo.sc_self DemoStops.cancellation) "slow"
    = Some DemoStops.slow /\
  (run_json DemoStops.slow "{}" 0%nat).1 = Raise DemoStops.cancelled_error /\
  (_execute_tool_call (Demo.sc_self DemoStops.cancellation)
     (Demo.call "c2" "slow") 0%nat).1 = Raise DemoStops.cancelled_error /\
  (forall sched,
     (Asyncio.gather (_execute_tool_call (Demo.sc_self DemoStops.cancellation))
        [Demo.call "c1" "get_time"; Demo.call "c2" "slow"] sched 0%nat).1
     = Raise DemoStops.cancelled_error) /\
  (Demo.sc_run DemoStops.cancellation).1 = Raise DemoStops.cancelled_error /\
  responses (st_yielded (Demo.sc_run DemoStops.cancellation).2) = [] /\
  (forall response,
     ~ completes_with (Demo.sc_run DemoStops.cancellation) response).
Proof.
  split; [vm_compute; reflexivity|]. split; [vm_compute; reflexivity|].
  split; [vm_compute; reflexivity|]. split.
  { intros sched. unfold Asyncio.gather, PyM.bind.
    cbn [length Asyncio.gather_loop imap].
    destruct (hd 0%nat sched `mod` 2)%nat as [|[|n]] eqn:Hpick.
    - vm_compute. reflexivity.
    - vm_compute. reflexivity.
    - pose proof (Nat.mod_upper_bound (hd 0%nat sched) 2). lia. }
  split; [vm_compute; reflexivity|]. split; [vm_compute; reflexivity|].
  intros response [Hrun _]. vm_compute in Hrun. discriminate Hrun.
Qed.



Lemma reflection_requires_text_witness :
  completes_with (Demo.sc_run Demo.reflective)
    {| chat_message :=
         TextMessage "It is 12:00." "assistant" (Some (mkUsage 10 5));
       inner_messages :=
         tool_events (Demo.sc_self Demo.reflective)
           (Demo.sc_result Demo.reflective)
           [Demo.call "c1" "get_time"] [mkFER "12:00" "c1"] |} /\
  snd <$> st_create_calls (Demo.sc_run Demo.reflective).2 =
    [[Demo.get_time]; []].
Proof.
  pose proof (reflection_requires_text
              (Demo.sc_self Demo.reflective)
              (Demo.sc_messages Demo.reflective)
              (Demo.sc_sched Demo.reflective) [] 0%nat
              (Demo.sc_s0 Demo.reflective) (Demo.sc_s1 Demo.reflective)
              (Demo.sc_result Demo.reflective)
              (Demo.sc_inference Demo.reflective).2
              (Demo.sc_calls Demo.reflective)
              (Demo.sc_results Demo.reflective)
              (Demo.sc_execution Demo.reflective).2
              (Demo.result_of (Demo.sc_reflection Demo.reflective).1)
              (Demo.sc_reflection Demo.reflective).2) as Hturn.
  repeat
    match type of Hturn with
    | ?P -> _ =>
        let HP := fresh "HP" in
        assert (HP : P) by (vm_compute; reflexivity);
        specialize (Hturn HP); clear HP
    end.
  vm_compute in Hturn. destruct Hturn as (_ & Hcompletes & _).
  split; [|vm_compute; reflexivity].
  vm_compute. exact Hcompletes.
Defined.

Lemma vision_error_during_ingestion_witness :
  Demo.sc_run Demo.unseen_image =
    (Raise (mkExc ValueError "The model does not support vision."),
     with_model_context [UserMessage (Str "hi") "user"] Demo.start).
Proof.
  destruct (vision_error_during_ingestion
              (Demo.sc_self Demo.unseen_image)
              (Demo.sc_messages Demo.unseen_image)
              (Demo.sc_sched Demo.unseen_image) Demo.start)
    as (pre & mm & post & Hbatch & Hpre & Hmm & Hrun & _).
  - vm_compute. reflexivity.
  - exists (Demo.picture "user").
    split; [|reflexivity]. vm_compute. apply elem_of_cons. right.
    apply elem_of_cons. left. reflexivity.
  - cbv [Demo.sc_messages Demo.unseen_image] in Hbatch.
    destruct pre as [|m0 [|m1 pre]]; simpl in Hbatch;
      inversion Hbatch; subst.
    + discriminate Hmm.
    + exact Hrun.
    + apply Forall_cons in Hpre as [_ [Hm1 _]%Forall_cons].
      discriminate Hm1.
Defined.

(** C4 as stated does not hold: the multi-modal message of this batch
    comes second, the turn raises the capability error, and the first
    message is in the store that was empty before the turn. *)
Lemma vision_error_leaves_partial_store :
  vision (model_info (agent_model_client (Demo.sc_self Demo.unseen_image)))
    = false /\
  (exists m, m ∈ Demo.sc_messages Demo.unseen_image /\
             is_MultiModalMessage m = true) /\
  (Demo.sc_run Demo.unseen_image).1 =
    Raise (mkExc ValueError "The model does not support vision.") /\
  st_model_context Demo.start = [] /\
  st_model_context (Demo.sc_run Demo.unseen_image).2 =
    [UserMessage (Str "hi") "user"] /\
  st_model_context (Demo.sc_run Demo.unseen_image).2 <>
    st_model_context Demo.start.
Proof.
  split; [reflexivity|]. split.
  { exists (Demo.picture "user").
    split; [|reflexivity]. vm_compute. apply elem_of_cons. right.
    apply elem_of_cons. left. reflexivity. }
  split; [vm_compute; reflexivity|]. split; [reflexivity|].
  split; [vm_compute; reflexivity|]. vm_compute. discriminate.
Qed.

Lemma ingestion_stores_user_entries_witness :
  st_model_context
    (add_messages_to_context (Demo.sc_self Demo.paris) Demo.mixed_batch
       Demo.resumed).2 =
  [SystemMessage "earlier";
   UserMessage (Str "hi") "user";
   UserMessage (Parts Demo.picture_parts) "bob";
   UserMessage (Str "over to you") "carol"].
Proof.
  destruct (ingestion_stores_user_entries (Demo.sc_self Demo.paris)
              Demo.mixed_batch Demo.resumed)
    as (n & Hn & Hstore & Hall).
  rewrite Hstore, Hall by (vm_compute; reflexivity). reflexivity.
Defined.

Lemma save_load_round_trip_witness :
  exists loaded,
    load_state (Demo.sc_self Demo.paris)
      (save_state (agent_after (Demo.sc_self Demo.time_summary)
                     (Demo.sc_run Demo.time_summary).2)) = Ok loaded /\
    agent_model_context loaded =
      st_model_context (Demo.sc_run Demo.time_summary).2.
Proof.
  apply (save_load_round_trip
           (agent_after (Demo.sc_self Demo.time_summary)
              (Demo.sc_run Demo.time_summary).2)
           (Demo.sc_self Demo.paris)).
Defined.

(** * Further properties of the module *)

(** ** Every run of a turn follows one of its paths *)

Ltac reduce_turn_state :=
  cbn [st_model_context st_world st_inner_messages st_yielded st_warnings
       st_create_calls with_model_context set_world set_context_world
       fst snd].

Ltac same_turn_state :=
  unfold PyM.modify, PyM.ret, PyM.raise, with_yielded, with_handoff_warning,
    after_reflection, after_tools, during_tools, after_failed_inference,
    after_inference, tool_events;
  reduce_turn_state; rewrite ?app_nil_r, <- ?app_assoc; reduce_turn_state;
  reflexivity.

Ltac run_to_inference Hadd Hmem Hcreate :=
  unfold on_messages_stream;
  rewrite (bind_Ok _ _ _ _ _ Hadd), (bind_Ok _ _ _ _ _ Hmem);
  rewrite bind_get; cbv zeta;
  rewrite (bind_Ok _ _ _ _ _ (model_client_create_run _ _ _ _ _ _ Hcreate));
  rewrite (bind_Ok _ _ _ _ _ (add_message_run _ _));
  reduce_turn_state.

Ltac run_to_tools Hadd Hmem Hcreate Hcontent :=
  run_to_inference Hadd Hmem Hcreate;
  rewrite Hcontent;
  unfold inner_messages_append, yield, add_message, warn;
  repeat (rewrite bind_modify; reduce_turn_state).

(** Reduce the goal, a path with the outcome of the run, to the equality
    of that outcome with the one the path [Hpath] ends in. *)
Ltac conclude_path Hpath :=
  match type of Hpath with
  | turn_path _ _ _ _ ?r =>
      match goal with
      | |- turn_path _ _ _ _ ?l => replace l with r; [exact Hpath|]
      end
  end.

Section TurnPaths.
Context `{Library}.

Lemma turn_paths (self : AssistantAgent) (messages : list ChatMessage)
    (sched : list nat) (s : TurnState) :
  turn_path self messages sched s (on_messages_stream self messages sched s).
Proof.
  destruct (add_messages_to_context self messages s) as [[[]|e] s0] eqn:Hadd.
  2:{ pose proof (path_ingestion_raises self messages sched s e s0 Hadd)
        as Hpath.
      conclude_path Hpath.
      unfold on_messages_stream. by rewrite (bind_Raise _ _ _ _ _ Hadd). }
  destruct (update_model_context_with_memory self s0) as [[[]|e] s1] eqn:Hmem.
  2:{ pose proof (path_memory_raises self messages sched s e s0 s1 Hadd Hmem)
        as Hpath.
      conclude_path Hpath.
      unfold on_messages_stream.
      by rewrite (bind_Ok _ _ _ _ _ Hadd), (bind_Raise _ _ _ _ _ Hmem). }
  destruct (first_inference self s1) as [[result|e] w] eqn:Hcreate.
  2:{ pose proof (path_inference_raises self messages sched s e s0 s1 w
                    Hadd Hmem Hcreate) as Hpath.
      conclude_path Hpath.
      unfold on_messages_stream, first_inference in *.
      rewrite (bind_Ok _ _ _ _ _ Hadd), (bind_Ok _ _ _ _ _ Hmem).
      rewrite bind_get. cbv zeta.
      by rewrite (bind_Raise _ _ _ _ _
                    (model_client_create_run _ _ _ _ _ _ Hcreate)). }
  destruct (cr_content result) as [content|calls] eqn:Hcontent.
  { pose proof (path_text self messages sched s s0 s1 result w content
                  Hadd Hmem Hcreate Hcontent) as Hpath.
    unfold first_inference in Hcreate.
    conclude_path Hpath.
    unfold with_yielded, after_inference.
    run_to_inference Hadd Hmem Hcreate. rewrite Hcontent.
    rewrite bind_get. unfold yield. same_turn_state. }
  destruct (Asyncio.gather (_execute_tool_call self) calls sched w)
    as [[results|e] w3] eqn:Hgather.
  2:{ pose proof (path_tools_raise self messages sched s s0 s1 result w calls
                    e w3 Hadd Hmem Hcreate Hcontent Hgather) as Hpath.
      unfold first_inference in Hcreate.
      conclude_path Hpath.
      run_to_tools Hadd Hmem Hcreate Hcontent.
      erewrite bind_Raise by (apply in_world_run; exact Hgather).
      same_turn_state. }
  destruct (detect_handoffs self calls) as [|handoff others] eqn:Hdetect.
  2:{ pose proof (path_handoff self messages sched s s0 s1 result w calls
                    results w3 handoff others
                    Hadd Hmem Hcreate Hcontent Hgather Hdetect) as Hpath.
      unfold first_inference in Hcreate.
      rewrite (turn_handoff_branch _ _ _ _ _ _ _ _ _ _ _ _ _
                 Hadd Hmem Hcreate Hcontent Hgather Hdetect).
      cbv zeta.
      conclude_path Hpath.
      destruct others; same_turn_state. }
  destruct (agent_reflect_on_tool_use self) eqn:Hreflect.
  2:{ destruct (tool_call_summaries self calls results) as [summaries|e]
        eqn:Hsum.
      - pose proof (path_summary self messages sched s s0 s1 result w calls
                      results w3 summaries
                      Hadd Hmem Hcreate Hcontent Hgather Hdetect Hreflect Hsum)
          as Hpath.
        unfold first_inference in Hcreate.
        rewrite (turn_summary_branch _ _ _ _ _ _ _ _ _ _ _
                   Hadd Hmem Hcreate Hcontent Hgather Hdetect Hreflect).
        cbv zeta. by rewrite Hsum.
      - pose proof (path_summary_raises self messages sched s s0 s1 result w
                      calls results w3 e
                      Hadd Hmem Hcreate Hcontent Hgather Hdetect Hreflect Hsum)
          as Hpath.
        unfold first_inference in Hcreate.
        rewrite (turn_summary_branch _ _ _ _ _ _ _ _ _ _ _
                   Hadd Hmem Hcreate Hcontent Hgather Hdetect Hreflect).
        cbv zeta. by rewrite Hsum. }
  destruct (create (agent_model_client self)
              (agent_system_messages self ++
                 st_model_context
                   (after_tools self s1 result calls results w3))
              [] w3) as [[result2|e] w4] eqn:Hcreate2.
  - destruct (cr_content result2) as [content|calls2] eqn:Hcontent2.
    + pose proof (path_reflection_text self messages sched s s0 s1 result w
                    calls results w3 result2 w4 content
                    Hadd Hmem Hcreate Hcontent Hgather Hdetect Hreflect
                    Hcreate2 Hcontent2) as Hpath.
      unfold first_inference in Hcreate.
      rewrite (turn_reflection_branch _ _ _ _ _ _ _ _ _ _ _ _ _
                 Hadd Hmem Hcreate Hcontent Hgather Hdetect Hreflect Hcreate2).
      cbv zeta. rewrite Hcontent2. exact Hpath.
    + pose proof (path_reflection_not_text self messages sched s s0 s1 result
                    w calls results w3 result2 w4 calls2
                    Hadd Hmem Hcreate Hcontent Hgather Hdetect Hreflect
                    Hcreate2 Hcontent2) as Hpath.
      unfold first_inference in Hcreate.
      rewrite (turn_reflection_branch _ _ _ _ _ _ _ _ _ _ _ _ _
                 Hadd Hmem Hcreate Hcontent Hgather Hdetect Hreflect Hcreate2).
      cbv zeta. rewrite Hcontent2. exact Hpath.
  - pose proof (path_reflection_raises self messages sched s s0 s1 result w
                  calls results w3 e w4
                  Hadd Hmem Hcreate Hcontent Hgather Hdetect Hreflect Hcreate2)
      as Hpath.
    unfold first_inference in Hcreate.
    conclude_path Hpath.
    run_to_tools Hadd Hmem Hcreate Hcontent.
    erewrite bind_Ok by (apply in_world_run; exact Hgather).
    reduce_turn_state. repeat (rewrite bind_modify; reduce_turn_state).
    rewrite Hdetect, Hreflect, bind_get. cbv zeta. reduce_turn_state.
    unfold after_tools in Hcreate2.
    cbn [st_model_context] in Hcreate2.
    rewrite <- !app_assoc. cbn [app].
    erewrite bind_Raise
      by (apply model_client_create_run; reduce_turn_state; exact Hcreate2).
    same_turn_state.
Qed.

(** Ingestion changes nothing but the model context. *)
Lemma ingestion_extends self messages s r s0 :
  add_messages_to_context self messages s = (r, s0) -> memory_extends s s0.
Proof.
  intros Hadd.
  destruct (add_messages_to_context_run self messages s) as (n & _ & Hst & _).
  rewrite Hadd in Hst. simpl in Hst. subst s0.
  split; [done|]. split; [done|]. exists []. by rewrite !app_nil_r.
Qed.

(** Up to the first inference call only memory events are added. *)
Lemma prelude_extends self messages s s0 r s1 :
  add_messages_to_context self messages s = (Ok tt, s0) ->
  update_model_context_with_memory self s0 = (r, s1) ->
  memory_extends s s1.
Proof.
  intros Hadd%ingestion_extends Hmem%memory_phase_extends.
  by eapply memory_extends_trans.
Qed.

End TurnPaths.

(** Name what the prelude of a path added: [Hc] the inference calls,
    [Hw] the warnings, [Hi] the inner messages, [Hy] the yielded items. *)
Ltac path_prelude :=
  match goal with
  | Hadd : add_messages_to_context _ _ _ = (Ok tt, _),
    Hmem : update_model_context_with_memory _ _ = _ |- _ =>
      destruct (prelude_extends _ _ _ _ _ _ Hadd Hmem)
        as (Hc & Hw & events & Hi & Hy & Hevents)
  | Hadd : add_messages_to_context _ _ _ = _ |- _ =>
      destruct (ingestion_extends _ _ _ _ _ Hadd)
        as (Hc & Hw & events & Hi & Hy & Hevents)
  end.

Ltac unfold_path_state :=
  unfold with_yielded, with_handoff_warning, after_reflection, after_tools,
    during_tools, after_failed_inference, after_inference;
  reduce_turn_state.

Section StreamShape.
Context `{Library}.

Lemma turn_yields (self : AssistantAgent) (messages : list ChatMessage)
    (sched : list nat) (s : TurnState) :
  exists events,
    st_inner_messages (on_messages_stream self messages sched s).2 =
      st_inner_messages s ++ events /\
    match (on_messages_stream self messages sched s).1 with
    | Ok _ =>
        exists chat,
          st_yielded (on_messages_stream self messages sched s).2 =
            st_yielded s ++ (YEvent <$> events) ++
              [YResponse {| chat_message := chat;
                            inner_messages := st_inner_messages s ++ events |}]
    | Raise _ =>
        st_yielded (on_messages_stream self messages sched s).2 =
          st_yielded s ++ (YEvent <$> events)
    end.
Proof.
  pose proof (turn_paths self messages sched s) as Hpath.
  destruct Hpath; path_prelude; cbn [fst snd]; unfold_path_state.
  all: eexists; split;
    [rewrite ?Hi, <- ?app_assoc; reflexivity|].
  all: try eexists.
  all: rewrite ?Hy, ?Hi, ?fmap_app, <- ?app_assoc; try reflexivity.
Qed.

End StreamShape.

(** ** The stream of a turn *)

Section StreamFacts.
Context `{Library}.

(** X1. The stream of a turn that returns is the events of the turn
    followed by one [Response], which is its last item and whose
    [inner_messages] are exactly the events yielded before it, in order;
    the stream of a turn that raises holds events only. *)
Theorem response_is_last_with_all_events (self : AssistantAgent)
    (messages : list ChatMessage) (sched : list nat)
    (model_context : list LLMMessage) (w : World) :
  match
    (on_messages_stream self messages sched (turn_start model_context w)).1
  with
  | Ok _ =>
      exists response,
        st_yielded
          (on_messages_stream self messages sched
             (turn_start model_context w)).2 =
          (YEvent <$> inner_messages response) ++ [YResponse response]
  | Raise _ =>
      exists events,
        st_yielded
          (on_messages_stream self messages sched
             (turn_start model_context w)).2 = YEvent <$> events
  end.
Proof.
  destruct (turn_yields self messages sched (turn_start model_context w))
    as (events & Hinner & Hyielded).
  destruct (on_messages_stream _ _ _ _).1.
  - destruct Hyielded as (chat & ->).
    by exists {| chat_message := chat; inner_messages := events |}.
  - rewrite Hyielded. by exists events.
Qed.

(** X2. [on_messages] returns the [Response] of the stream when the
    stream returns, and raises what the stream raises; it leaves the
    state the stream left.  Its own assertion, that the stream has
    returned a final result, never fails. *)
Theorem on_messages_returns_the_response (self : AssistantAgent)
    (messages : list ChatMessage) (sched : list nat)
    (model_context : list LLMMessage) (w : World) :
  match
    (on_messages_stream self messages sched (turn_start model_context w)).1
  with
  | Ok _ =>
      exists response,
        on_messages self messages sched (turn_start model_context w) =
          (Ok response,
           (on_messages_stream self messages sched
              (turn_start model_context w)).2) /\
        last (st_yielded
                (on_messages_stream self messages sched
                   (turn_start model_context w)).2)
          = Some (YResponse response) /\
        responses
          (st_yielded
             (on_messages_stream self messages sched
                (turn_start model_context w)).2) = [response]
  | Raise e =>
      on_messages self messages sched (turn_start model_context w) =
        (Raise e,
         (on_messages_stream self messages sched
            (turn_start model_context w)).2)
  end.
Proof.
  destruct (turn_yields self messages sched (turn_start model_context w))
    as (events & Hinner & Hyielded).
  unfold on_messages.
  destruct (on_messages_stream self messages sched _) as [[[]|e] s'] eqn:Hrun;
    cbn [fst snd] in *.
  2:{ by rewrite (bind_Raise _ _ _ _ _ Hrun). }
  rewrite (bind_Ok _ _ _ _ _ Hrun), bind_get.
  destruct Hyielded as (chat & Hyielded). simpl in Hyielded.
  assert (responses (st_yielded s') =
          [ {| chat_message := chat; inner_messages := events |} ]) as Hr.
  { by rewrite Hyielded, responses_app, responses_events. }
  eexists. unfold first_response. rewrite Hr. simpl.
  split; [reflexivity|]. split; [|done].
  by rewrite Hyielded, last_snoc.
Qed.

Lemma produced_text self : TextMessageType ∈ produced_message_types self.
Proof.
  unfold produced_message_types.
  destruct (size (agent_handoffs self) =? 0)%nat, (agent_tools self);
    cbn; apply elem_of_cons; by left.
Qed.

Lemma produced_handoff self name handoff :
  agent_handoffs self !! name = Some handoff ->
  HandoffMessageType ∈ produced_message_types self.
Proof.
  intros Hlookup. unfold produced_message_types.
  destruct (size (agent_handoffs self) =? 0)%nat eqn:Esize.
  - apply Nat.eqb_eq, map_size_empty_inv in Esize.
    rewrite Esize in Hlookup. by rewrite lookup_empty in Hlookup.
  - destruct (agent_tools self); cbn;
      apply elem_of_cons; right; apply elem_of_cons; by left.
Qed.

Lemma produced_summary self :
  agent_tools self <> [] ->
  ToolCallSummaryMessageType ∈ produced_message_types self.
Proof.
  intros Htools. unfold produced_message_types.
  destruct (agent_tools self); [done|].
  destruct (size (agent_handoffs self) =? 0)%nat; cbn;
    repeat (apply elem_of_cons; (by left) || right).
Qed.

Lemma detect_handoffs_lookup self calls handoff others :
  detect_handoffs self calls = handoff :: others ->
  exists name, agent_handoffs self !! name = Some handoff.
Proof.
  intros Hdetect.
  assert (handoff ∈ detect_handoffs self calls) as Hin.
  { rewrite Hdetect. by left. }
  apply list_elem_of_omap in Hin as (call & _ & Hcall). eauto.
Qed.

(** X3. The class of the [Response] of a turn is one of
    [produced_message_types], with one exception: an agent without
    tools of its own still answers with a [ToolCallSummaryMessage] when
    the model requests calls that match no handoff and reflection is
    off. *)
Theorem response_types_are_produced (self : AssistantAgent)
    (messages : list ChatMessage) (sched : list nat)
    (model_context : list LLMMessage) (w : World) :
  Forall
    (fun response =>
       message_type (chat_message response) ∈ produced_message_types self \/
       (agent_tools self = [] /\
        message_type (chat_message response) = ToolCallSummaryMessageType))
    (responses
       (st_yielded
          (on_messages_stream self messages sched
             (turn_start model_context w)).2)).
Proof.
  pose proof (turn_paths self messages sched (turn_start model_context w))
    as Hpath.
  destruct Hpath; path_prelude; cbn [fst snd]; unfold_path_state;
    rewrite Hy; cbn [turn_start st_yielded app];
    rewrite ?responses_app, ?responses_events; cbn [app];
    try (cbn; by constructor).
  all: cbn; constructor; [|constructor]; cbn.
  - left. apply produced_text.
  - left. destruct (detect_handoffs_lookup _ _ _ _ ltac:(eassumption)) as [n Hn].
    by eapply produced_handoff.
  - destruct (agent_tools self) eqn:Etools; [by right|].
    left. apply produced_summary. by rewrite Etools.
  - left. apply produced_text.
Qed.

(** X4. A turn makes at most two inference calls.  The first passes the
    tools and the handoff tools; a second is made only by an agent that
    reflects on tool use, and passes no tools. *)
Theorem at_most_two_inference_calls (self : AssistantAgent)
    (messages : list ChatMessage) (sched : list nat)
    (model_context : list LLMMessage) (w : World) :
  let create_calls :=
    st_create_calls
      (on_messages_stream self messages sched
         (turn_start model_context w)).2 in
  (length create_calls <= 2)%nat /\
  (forall first, create_calls !! 0%nat = Some first ->
     first.2 = agent_tools self ++ agent_handoff_tools self) /\
  (forall second, create_calls !! 1%nat = Some second ->
     second.2 = [] /\ agent_reflect_on_tool_use self = true).
Proof.
  pose proof (turn_paths self messages sched (turn_start model_context w))
    as Hpath.
  cbv zeta.
  destruct Hpath; path_prelude; cbn [fst snd]; unfold_path_state;
    rewrite Hc; cbn [turn_start st_create_calls app length lookup];
    (split; [lia|]); split; intros c Hlookup; simpl in Hlookup;
    by simplify_eq.
Qed.

End StreamFacts.

(** ** What a turn does to the model context *)

Section ContextFacts.
Context `{Library}.

Lemma memory_loop_appends (self : AssistantAgent) (memories : list Memory)
    s r s' :
  (forall memory, memory ∈ memories ->
   forall cw r cw',
     update_context memory cw = (r, cw') ->
     exists added, cw'.1 = cw.1 ++ added) ->
  PyM.for_each memories (fun memory =>
    (update_context_result <-
       PyM.zoom (fun s => (st_model_context s, st_world s)) set_context_world
         (update_context memory) ;;
     match update_context_result with
     | Some results =>
         if (0 <? length results)%nat then
           let memory_query_event_msg :=
             MemoryQueryEvent results (agent_name self) in
           inner_messages_append memory_query_event_msg ;;;
           yield (YEvent memory_query_event_msg)
         else PyM.ret tt
     | None => PyM.ret tt
     end)%py) s = (r, s') ->
  exists added, st_model_context s' = st_model_context s ++ added.
Proof.
  revert s. induction memories as [|memory rest IH]; intros s Happ; simpl.
  - unfold PyM.ret. intros; simplify_eq. exists []. by rewrite app_nil_r.
  - assert (forall m, m ∈ rest ->
            forall cw r cw', update_context m cw = (r, cw') ->
            exists added, cw'.1 = cw.1 ++ added) as Hrest.
    { intros m Hm. apply Happ. by right. }
    unfold PyM.bind at 1. unfold PyM.bind at 1. unfold PyM.zoom.
    destruct (update_context memory (st_model_context s, st_world s))
      as [[[results|]|e] cw] eqn:Hm.
    all: destruct (Happ memory ltac:(by left) _ _ _ Hm) as (added & Ha);
      simpl in Ha.
    + destruct (0 <? length results)%nat; simpl; intros Hrun;
        destruct (IH _ Hrest Hrun) as (added' & Ha'); simpl in Ha';
        exists (added ++ added'); by rewrite Ha', Ha, app_assoc.
    + simpl. intros Hrun.
      destruct (IH _ Hrest Hrun) as (added' & Ha'); simpl in Ha'.
      exists (added ++ added'). by rewrite Ha', Ha, app_assoc.
    + simpl. intros; simplify_eq. simpl. by exists added.
Qed.

(** X5. A turn never removes or reorders what the model context held:
    provided the memory providers only append to the context, the
    context after the turn, whether the turn returns or raises, is the
    context before it followed by what the turn added. *)
Theorem turn_only_appends_to_context (self : AssistantAgent)
    (messages : list ChatMessage) (sched : list nat)
    (model_context : list LLMMessage) (w : World) :
  memory_appends self ->
  exists added,
    st_model_context
      (on_messages_stream self messages sched
         (turn_start model_context w)).2 = model_context ++ added.
Proof.
  intros Happends.
  assert (forall s s0 r, add_messages_to_context self messages s = (r, s0) ->
            exists added, st_model_context s0 = st_model_context s ++ added)
    as Hingest.
  { intros s s0 r Hadd.
    destruct (add_messages_to_context_run self messages s)
      as (n & _ & Hst & _).
    rewrite Hadd in Hst. simpl in Hst. subst s0. simpl. eauto. }
  assert (forall s0 r s1, update_model_context_with_memory self s0 = (r, s1) ->
            exists added, st_model_context s1 = st_model_context s0 ++ added)
    as Hmemory.
  { intros s0 r s1. by apply memory_loop_appends. }
  pose proof (turn_paths self messages sched (turn_start model_context w))
    as Hpath.
  destruct Hpath;
    repeat match goal with
    | Hadd : add_messages_to_context _ _ _ = _ |- _ =>
        apply Hingest in Hadd as (entries & Hentries)
    | Hmem : update_model_context_with_memory _ _ = _ |- _ =>
        apply Hmemory in Hmem as (memories & Hmemories)
    end;
    cbn [fst snd]; unfold_path_state;
    rewrite ?Hmemories, ?Hentries; cbn [turn_start st_model_context];
    rewrite <- ?app_assoc; eauto.
Qed.

(** X6. Ingestion completes exactly when the model has vision or no
    message of the batch is multi-modal. *)
Theorem ingestion_completes_iff (self : AssistantAgent)
    (messages : list ChatMessage) (s : TurnState) :
  is_Ok (add_messages_to_context self messages s).1 = true <->
  vision (model_info (agent_model_client self)) = true \/
  Forall (fun m => is_MultiModalMessage m = false) messages.
Proof.
  split.
  - intros Hok.
    destruct (vision (model_info (agent_model_client self))) eqn:Hvision;
      [by left|right].
    destruct (decide (Forall (fun m => is_MultiModalMessage m = false)
                        messages)) as [|Hnot]; [done|].
    exfalso. apply not_Forall_Exists in Hnot; [|apply _].
    apply Exists_exists in Hnot as (m & Hin & Hm).
    destruct (first_multimodal messages) as (pre & mm & post & -> & Hpre & Hmm).
    { exists m. split; [done|].
      destruct (is_MultiModalMessage m) eqn:Em; [done|].
      exfalso. by apply Hm. }
    by rewrite (add_messages_to_context_vision_error _ _ _ _ _
                  Hvision Hmm Hpre) in Hok.
  - intros Hcond. revert s.
    induction messages as [|m rest IH]; intros s; [done|].
    unfold add_messages_to_context.
    change (PyM.for_each (m :: rest) ?f) with
      (PyM.bind (f m) (fun _ => PyM.for_each rest f)).
    assert (is_MultiModalMessage m
            && negb (vision (model_info (agent_model_client self))) = false)
      as Hm.
    { destruct Hcond as [->|Hall]; [by rewrite andb_false_r|].
      apply Forall_cons in Hall as [-> _]. done. }
    unfold PyM.bind at 1. cbv beta. rewrite Hm, add_message_run.
    apply IH. destruct Hcond as [?|Hall]; [by left|right].
    by apply Forall_cons in Hall as [_ ?].
Qed.

End ContextFacts.

(** ** Where a turn stops *)

(** Case analysis on the path of the run in the goal, keeping the path
    that agrees with the hypotheses about the phases. *)
Ltac merge_phase_equations :=
  repeat match goal with
  | H1 : ?x = ?a, H2 : ?x = ?b |- _ =>
      rewrite H1 in H2; simplify_eq
  end.

Ltac on_the_path :=
  match goal with
  | |- context [on_messages_stream ?self ?messages ?sched ?s] =>
      let Hpath := fresh "Hpath" in
      pose proof (turn_paths self messages sched s) as Hpath;
      destruct Hpath; unfold first_inference in *; merge_phase_equations
  end.

Section Stops.
Context `{Library}.

(** X7. An exception raised by a memory provider or by the first
    inference call ends the turn with that exception and without a
    [Response].  After a memory failure no inference call has been made;
    after an inference failure no assistant message has been stored:
    the model context is as the memory providers left it. *)
Theorem collaborator_failure_propagates (self : AssistantAgent)
    (messages : list ChatMessage) (sched : list nat)
    (model_context : list LLMMessage) (w0 : World) (s0 s1 : TurnState) :
  add_messages_to_context self messages (turn_start model_context w0)
    = (Ok tt, s0) ->
  (forall e,
     update_model_context_with_memory self s0 = (Raise e, s1) ->
     on_messages_stream self messages sched (turn_start model_context w0)
       = (Raise e, s1) /\
     st_create_calls s1 = [] /\
     responses (st_yielded s1) = []) /\
  (forall e w,
     update_model_context_with_memory self s0 = (Ok tt, s1) ->
     create (agent_model_client self)
       (agent_system_messages self ++ st_model_context s1)
       (agent_tools self ++ agent_handoff_tools self) (st_world s1)
       = (Raise e, w) ->
     let s2 :=
       after_failed_inference self s1
         (agent_tools self ++ agent_handoff_tools self) w in
     on_messages_stream self messages sched (turn_start model_context w0)
       = (Raise e, s2) /\
     st_model_context s2 = st_model_context s1 /\
     responses (st_yielded s2) = []).
Proof.
  intros Hadd.
  assert (forall r, update_model_context_with_memory self s0 = (r, s1) ->
            st_create_calls s1 = [] /\ responses (st_yielded s1) = [])
    as Hprelude.
  { intros r Hmem.
    destruct (ingestion_extends _ _ _ _ _ Hadd)
      as (Hc0 & _ & ev0 & _ & Hy0 & _).
    destruct (memory_phase_extends _ _ _ _ Hmem)
      as (Hc1 & _ & ev1 & _ & Hy1 & _).
    split; [by rewrite Hc1, Hc0|].
    rewrite Hy1, Hy0. cbn [turn_start st_yielded app].
    by rewrite responses_app, !responses_events. }
  split.
  - intros e Hmem. split; [on_the_path; reflexivity|by eapply Hprelude].
  - intros e w Hmem Hcreate s2. split; [on_the_path; reflexivity|].
    split; [done|]. subst s2. unfold after_failed_inference.
    cbn [st_yielded]. by eapply Hprelude.
Qed.

End Stops.

Section GatherMore.
Context {St A B : Type}.
Variable coroutine : A -> PyM.M St B.
Variable xs : list A.

(** An exception leaves a [gather] only when one of its coroutines
    raised it. *)
Lemma gather_loop_raise n pending sched slots s e s' :
  (forall j i x, pending !! j = Some (i, x) -> xs !! i = Some x) ->
  Asyncio.gather_loop coroutine n pending sched slots s = (Raise e, s') ->
  exists x s0, x ∈ xs /\ coroutine x s0 = (Raise e, s').
Proof.
  revert pending sched slots s.
  induction n as [|n IH]; intros pending sched slots s Hpend; simpl.
  - unfold PyM.ret. intros; simplify_eq.
  - destruct (pending !! _) as [[i x]|] eqn:Hpick;
      [|unfold PyM.ret; intros; simplify_eq].
    unfold PyM.bind.
    destruct (coroutine x s) as [[b|e'] s1] eqn:Hco.
    + apply IH. intros j i' x'. rewrite list_lookup_delete. eauto.
    + intros; simplify_eq. exists x, s. split; [|done].
      eapply list_elem_of_lookup_2, Hpend, Hpick.
Qed.

Lemma gather_raise sched s e s' :
  Asyncio.gather coroutine xs sched s = (Raise e, s') ->
  exists x s0, x ∈ xs /\ coroutine x s0 = (Raise e, s').
Proof.
  unfold Asyncio.gather, PyM.bind.
  destruct (Asyncio.gather_loop _ _ _ _ _ _) as [[slots|e'] s1] eqn:Hloop;
    [unfold PyM.ret; intros; simplify_eq|].
  intros; simplify_eq. eapply gather_loop_raise; [|exact Hloop].
  intros j i x. rewrite list_lookup_imap.
  destruct (xs !! j) eqn:E; intros; simplify_eq/=. done.
Qed.

(** Coroutines that return without touching the state make a [gather]
    that returns their results in argument order and leaves the state,
    for every completion order. *)
Lemma gather_loop_state n pending sched slots s r s' :
  (forall x s0, x ∈ xs -> (coroutine x s0).2 = s0) ->
  (forall j i x, pending !! j = Some (i, x) -> xs !! i = Some x) ->
  Asyncio.gather_loop coroutine n pending sched slots s = (r, s') ->
  s' = s.
Proof.
  intros Hpure. revert pending sched slots s.
  induction n as [|n IH]; intros pending sched slots s Hpend; simpl.
  - unfold PyM.ret. by intros; simplify_eq.
  - destruct (pending !! _) as [[i x]|] eqn:Hpick;
      [|unfold PyM.ret; by intros; simplify_eq].
    unfold PyM.bind.
    pose proof (Hpure x s ltac:(eapply list_elem_of_lookup_2, Hpend, Hpick))
      as Hs.
    destruct (coroutine x s) as [[b|e'] s1] eqn:Hco; simpl in Hs; subst s1.
    + apply IH. intros j i' x'. rewrite list_lookup_delete. eauto.
    + by intros; simplify_eq.
Qed.

Lemma gather_pure (g : A -> B) sched s :
  (forall x s0, x ∈ xs -> coroutine x s0 = (Ok (g x), s0)) ->
  Asyncio.gather coroutine xs sched s = (Ok (g <$> xs), s).
Proof.
  intros Hpure.
  destruct (gather_total coroutine xs sched s) as (rs & s' & Hrun).
  { intros x s0 Hx. rewrite (Hpure x s0 Hx). eauto. }
  assert (Forall2 (fun x b => b = g x) xs rs) as Hrs.
  { eapply gather_Forall2; [|exact Hrun].
    intros x s0 b s1 Hx Hco. rewrite (Hpure x s0 Hx) in Hco.
    by simplify_eq. }
  assert (s' = s) as ->.
  { revert Hrun. unfold Asyncio.gather, PyM.bind.
    destruct (Asyncio.gather_loop _ _ _ _ _ _) as [[slots|e'] s1] eqn:Hloop;
      [|done].
    unfold PyM.ret. intros; simplify_eq.
    eapply gather_loop_state; [| |exact Hloop].
    - intros x s0 Hx. by rewrite (Hpure x s0 Hx).
    - intros j i x. rewrite list_lookup_imap.
      destruct (xs !! j) eqn:E; intros; simplify_eq/=. done. }
  rewrite Hrun. f_equal. f_equal.
  clear Hrun. induction Hrs as [|x b l k -> _ IH]; [done|].
  csimpl. f_equal. apply IH. intros y s0 Hy. apply Hpure. by right.
Qed.

End GatherMore.

Section ToolPhase.
Context `{Library}.

(** X8. When the concurrent execution of the tool calls raises, the
    exception is one that the execution of one of the requested calls
    raised, and the turn raises it.  The assistant message with the
    requests is then the last entry of the model context, with no
    message of results after it; the request event was yielded, the
    execution event and the [Response] were not; and the model has been
    called once. *)
Theorem tool_phase_exception_ends_turn (self : AssistantAgent)
    (messages : list ChatMessage) (sched : list nat)
    (model_context : list LLMMessage) (w0 : World) (s0 s1 : TurnState)
    (result : CreateResult) (w : World) (calls : list FunctionCall)
    (e : PyExc) (w3 : World) :
  add_messages_to_context self messages (turn_start model_context w0)
    = (Ok tt, s0) ->
  update_model_context_with_memory self s0 = (Ok tt, s1) ->
  create (agent_model_client self)
    (agent_system_messages self ++ st_model_context s1)
    (agent_tools self ++ agent_handoff_tools self) (st_world s1)
    = (Ok result, w) ->
  cr_content result = Calls calls ->
  Asyncio.gather (_execute_tool_call self) calls sched w = (Raise e, w3) ->
  (exists tool_call w1 w2,
     tool_call ∈ calls /\
     _execute_tool_call self tool_call w1 = (Raise e, w2)) /\
  let run :=
    on_messages_stream self messages sched (turn_start model_context w0) in
  run.1 = Raise e /\
  st_model_context run.2 =
    st_model_context s1 ++ [AssistantMessage (Calls calls) (agent_name self)]
  /\
  st_yielded run.2 =
    st_yielded s1 ++
      [YEvent (ToolCallRequestEvent calls (agent_name self)
                 (Some (cr_usage result)))] /\
  responses (st_yielded run.2) = [] /\
  length (st_create_calls run.2) = 1%nat.
Proof.
  intros Hadd Hmem Hcreate Hcontent Hgather.
  destruct (gather_raise _ _ _ _ _ _ Hgather) as (tool_call & w1 & Hin & Hrun).
  split; [by exists tool_call, w1, w3|].
  destruct (before_inference _ _ _ _ _ _ Hadd Hmem) as (Hcalls & _ & Hy & _).
  assert (on_messages_stream self messages sched
            (turn_start model_context w0)
          = (Raise e, during_tools self s1 result calls w3)) as ->
    by (on_the_path; reflexivity).
  cbv zeta. unfold during_tools. cbn [fst snd st_model_context st_yielded
                                       st_create_calls].
  repeat (split; [done|]). split.
  - by rewrite responses_app, Hy, responses_events.
  - by rewrite Hcalls.
Qed.

Lemma unresolved_call_result self tool_call w :
  resolve self (fc_name tool_call) = None ->
  _execute_tool_call self tool_call w = (Ok (unavailable self tool_call), w).
Proof.
  unfold unavailable, resolve, registry, _execute_tool_call,
    PyM.try_except_Exception.
  destruct (agent_tools self ++ agent_handoff_tools self) as [|t l];
    [intros _; reflexivity|].
  intros ->. reflexivity.
Qed.

(** X9. A call whose name does not resolve, or whose arguments do not
    parse, runs no tool: the world is as before the call, and the result
    describes the failure under the id of the call. *)
Theorem failed_lookup_runs_no_tool (self : AssistantAgent)
    (tool_call : FunctionCall) (w : World) :
  (resolve self (fc_name tool_call) = None ->
   _execute_tool_call self tool_call w = (Ok (unavailable self tool_call), w))
  /\
  (forall tool msg,
     resolve self (fc_name tool_call) = Some tool ->
     json_loads (fc_arguments tool_call) = inl msg ->
     _execute_tool_call self tool_call w =
       (Ok (mkFER ("Error: " +:+ msg) (fc_id tool_call)), w)).
Proof.
  split; [apply unresolved_call_result|].
  intros tool msg Hresolve Hloads.
  pose proof (execute_tool_call_cases self tool_call w) as Hcases.
  by rewrite Hresolve, Hloads in Hcases.
Qed.

(** X10. A batch of requests none of which resolves -- every batch, for
    an agent without tools and handoffs -- returns one error result per
    request, in request order, and leaves the world untouched, whatever
    the completion order. *)
Theorem unresolved_batch_runs_no_tool (self : AssistantAgent)
    (calls : list FunctionCall) (sched : list nat) (w : World) :
  (forall tool_call, tool_call ∈ calls ->
     resolve self (fc_name tool_call) = None) ->
  Asyncio.gather (_execute_tool_call self) calls sched w =
    (Ok (unavailable self <$> calls), w).
Proof.
  intros Hnone. apply gather_pure. intros tool_call w0 Hin.
  by apply unresolved_call_result, Hnone.
Qed.

End ToolPhase.

(** ** The summary *)

Section SummaryMore.
Context `{Library}.

Lemma format_documented_template call result :
  StrFormat.format format_beyond (summary_kwargs call result)
    "{tool_name}: {result}"
  = Ok (fc_name call +:+ ": " +:+ fer_content result).
Proof.
  destruct (summary_kwargs_lookup call result) as (Hn & _ & Hr).
  unfold StrFormat.format. cbn -[summary_kwargs lookup].
  repeat match goal with
         | |- context [StrFormat.snoc ?name ?c] =>
             let field := eval vm_compute in (StrFormat.snoc name c) in
             change (StrFormat.snoc name c) with field
         end.
  rewrite Hn, Hr. cbn. by rewrite string_app_empty_r.
Qed.

(** X11. With the template of the class documentation,
    ["{tool_name}: {result}"], the summary of each call is the name of
    the tool, a colon and a space, and the result content. *)
Theorem documented_template_summaries (self : AssistantAgent)
    (calls : list FunctionCall) (results : list FunctionExecutionResult) :
  agent_tool_call_summary_format self = "{tool_name}: {result}" ->
  length calls = length results ->
  tool_call_summaries self calls results =
    Ok ((fun cr => fc_name cr.1 +:+ ": " +:+ fer_content cr.2)
          <$> zip calls results).
Proof.
  intros Htemplate Hlen.
  rewrite tool_call_summaries_zip, Htemplate by done.
  apply res_mapM_Forall2.
  revert results Hlen. induction calls as [|c calls IH];
    intros [|r results] Hlen; simplify_eq/=; constructor.
  - apply format_documented_template.
  - by apply IH.
Qed.

(** X12. When the template cannot be formatted for the calls of the
    turn, the turn raises the formatting exception after the tools have
    run: the results are in the model context and both tool events were
    yielded, but there is no [Response]. *)
Theorem summary_failure_after_tools (self : AssistantAgent)
    (messages : list ChatMessage) (sched : list nat)
    (model_context : list LLMMessage) (w0 : World) (s0 s1 : TurnState)
    (result : CreateResult) (w : World) (calls : list FunctionCall)
    (results : list FunctionExecutionResult) (w3 : World) (e : PyExc) :
  add_messages_to_context self messages (turn_start model_context w0)
    = (Ok tt, s0) ->
  update_model_context_with_memory self s0 = (Ok tt, s1) ->
  create (agent_model_client self)
    (agent_system_messages self ++ st_model_context s1)
    (agent_tools self ++ agent_handoff_tools self) (st_world s1)
    = (Ok result, w) ->
  cr_content result = Calls calls ->
  Asyncio.gather (_execute_tool_call self) calls sched w
    = (Ok results, w3) ->
  detect_handoffs self calls = [] ->
  agent_reflect_on_tool_use self = false ->
  tool_call_summaries self calls results = Raise e ->
  on_messages_stream self messages sched (turn_start model_context w0) =
    (Raise e, after_tools self s1 result calls results w3) /\
  responses (st_yielded (after_tools self s1 result calls results w3)) = [].
Proof.
  intros Hadd Hmem Hcreate Hcontent Hgather Hdetect Hreflect Hsum.
  destruct (before_inference _ _ _ _ _ _ Hadd Hmem) as (_ & _ & Hy & _).
  split.
  - rewrite (turn_summary_branch _ _ _ _ _ _ _ _ _ _ _
               Hadd Hmem Hcreate Hcontent Hgather Hdetect Hreflect).
    cbv zeta. by rewrite Hsum.
  - unfold after_tools. cbn [st_yielded].
    by rewrite responses_app, Hy, !responses_events.
Qed.

(** X13. When the model returns an empty list of calls and reflection
    is off, no tool runs and the turn answers with a
    [ToolCallSummaryMessage] whose content is empty. *)
Theorem empty_call_list_gives_empty_summary (self : AssistantAgent)
    (messages : list ChatMessage) (sched : list nat)
    (model_context : list LLMMessage) (w0 : World) (s0 s1 : TurnState)
    (result : CreateResult) (w : World) :
  add_messages_to_context self messages (turn_start model_context w0)
    = (Ok tt, s0) ->
  update_model_context_with_memory self s0 = (Ok tt, s1) ->
  create (agent_model_client self)
    (agent_system_messages self ++ st_model_context s1)
    (agent_tools self ++ agent_handoff_tools self) (st_world s1)
    = (Ok result, w) ->
  cr_content result = Calls [] ->
  agent_reflect_on_tool_use self = false ->
  completes_with
    (on_messages_stream self messages sched (turn_start model_context w0))
    {| chat_message :=
         ToolCallSummaryMessage EmptyString (agent_name self) None;
       inner_messages :=
         st_inner_messages s1 ++ tool_events self result [] [] |} /\
  st_world
    (on_messages_stream self messages sched (turn_start model_context w0)).2
    = w.
Proof.
  intros Hadd Hmem Hcreate Hcontent Hreflect.
  destruct (before_inference _ _ _ _ _ _ Hadd Hmem) as (_ & _ & Hy & _).
  assert (Asyncio.gather (_execute_tool_call self) [] sched w = (Ok [], w))
    as Hgather by reflexivity.
  rewrite (turn_summary_branch _ _ _ _ _ _ _ _ _ _ _
             Hadd Hmem Hcreate Hcontent Hgather eq_refl Hreflect).
  cbv zeta. cbn [tool_call_summaries length seq res_mapM String.concat].
  split; [|reflexivity]. split; [done|]. cbn [snd]. split.
  - unfold with_yielded, after_tools. cbn [st_yielded].
    by rewrite !responses_app, Hy, !responses_events.
  - unfold with_yielded. cbn [st_yielded]. by rewrite last_snoc.
Qed.

End SummaryMore.

(** ** Construction *)

Section InitMore.
Context `{Library}.

Lemma res_mapM_is_Ok {A B} (f : A -> PyResult B) xs :
  is_Ok (res_mapM f xs) = true <-> Forall (fun x => is_Ok (f x) = true) xs.
Proof.
  induction xs as [|x xs IH]; simpl.
  - split; [constructor|done].
  - rewrite Forall_cons. destruct (f x) as [y|e]; simpl.
    + rewrite <- IH. destruct (res_mapM f xs); simpl; tauto.
    + split; [done|by intros []].
Qed.

Lemma init_memory_is_Ok memory :
  is_Ok (init_memory memory) = true <-> memory <> Some MemoryNotList.
Proof. destruct memory as [[l|]|]; simpl; split; congruence. Qed.

Lemma init_tools_is_Ok client tools :
  is_Ok (init_tools client tools) = true ->
  (is_Some tools -> function_calling (model_info client) = true) /\
  ToolUnsupported ∉ default [] tools.
Proof.
  destruct tools as [tools|]; simpl.
  2:{ intros _. split; [by intros []|apply not_elem_of_nil]. }
  destruct (function_calling _); simpl; [|done].
  rewrite res_mapM_is_Ok, Forall_forall.
  intros Hall. split; [done|]. intros Hin. by apply Hall in Hin.
Qed.

Lemma init_handoffs_is_Ok client handoffs :
  is_Ok (init_handoffs client handoffs) = true ->
  (is_Some handoffs -> function_calling (model_info client) = true) /\
  HandoffUnsupported ∉ default [] handoffs.
Proof.
  destruct handoffs as [handoffs|]; simpl.
  2:{ intros _. split; [by intros []|apply not_elem_of_nil]. }
  destruct (function_calling _); simpl; [|done].
  rewrite res_mapM_is_Ok, Forall_forall.
  intros Hall. split; [done|]. intros Hin. by apply Hall in Hin.
Qed.

(** The checks of [__init__], in the order in which it makes them. *)
Lemma init_is_Ok args :
  is_Ok (__init__ args) =
    is_Ok (init_memory (arg_memory args)) &&
    is_Ok (init_tools (arg_model_client args) (arg_tools args)) &&
    negb (has_duplicates (arg_tool_names args)) &&
    is_Ok (init_handoffs (arg_model_client args) (arg_handoffs args)) &&
    negb (has_duplicates (arg_handoff_tool_names args)) &&
    negb (any_in (arg_handoff_tool_names args) (arg_tool_names args)).
Proof.
  unfold __init__.
  destruct (init_memory _) as [memory|e]; simpl; [|done].
  destruct (init_tools _ _) as [tools|e] eqn:Et; simpl; [|done].
  rewrite (init_tools_names _ _ Et).
  destruct (has_duplicates (arg_tool_names args)); simpl; [done|].
  destruct (init_handoffs _ _) as [hs|e] eqn:Eh; simpl; [|done].
  rewrite (init_handoffs_names _ _ Eh).
  destruct (has_duplicates (arg_handoff_tool_names args)); simpl; [done|].
  by destruct (any_in _ _).
Qed.

(** What a successful construction has established. *)
Lemma init_Ok_inv args self :
  __init__ args = Ok self ->
  exists memory tools hs,
    init_memory (arg_memory args) = Ok memory /\
    init_tools (arg_model_client args) (arg_tools args) = Ok tools /\
    init_handoffs (arg_model_client args) (arg_handoffs args) = Ok hs /\
    NoDup (tool_name <$> tools) /\
    NoDup (tool_name <$> (handoff_tool <$> hs)) /\
    (forall n, n ∈ tool_name <$> (handoff_tool <$> hs) ->
               n ∉ tool_name <$> tools) /\
    self =
      mkAgent (arg_name args) (arg_description args) (arg_model_client args)
        memory
        match arg_system_message args with
        | None => []
        | Some system_message => [SystemMessage system_message]
        end
        tools (handoff_tool <$> hs) (handoffs_dict hs)
        match arg_model_context args with
        | Some model_context => model_context
        | None => []
        end
        (arg_reflect_on_tool_use args) (arg_tool_call_summary_format args)
        false.
Proof.
  unfold __init__.
  destruct (init_memory _) as [memory|e]; simpl; [|done].
  destruct (init_tools _ _) as [tools|e]; simpl; [|done].
  destruct (has_duplicates (tool_name <$> tools)) eqn:Hdt; [done|].
  destruct (init_handoffs _ _) as [hs|e]; simpl; [|done].
  destruct (has_duplicates (tool_name <$> (handoff_tool <$> hs))) eqn:Hdh;
    [done|].
  destruct (any_in _ _) eqn:Hany; [done|].
  intros [= <-]. exists memory, tools, hs.
  apply has_duplicates_false_NoDup in Hdt, Hdh.
  repeat (split; [done|]). split; [|done].
  intros n Hn Hn'.
  assert (any_in (tool_name <$> (handoff_tool <$> hs)) (tool_name <$> tools)
          = true) by (apply any_in_true; eauto).
  congruence.
Qed.

(** X14. Construction succeeds only when the [memory] argument is
    [None] or a list, the model supports function calling if [tools] or
    [handoffs] is given, every element of the two lists is of a
    supported kind, and the names of the tools and of the handoff tools
    are all different: when one of these fails, [__init__] raises. *)
Theorem init_succeeds_only_if (args : InitArgs) (self : AssistantAgent) :
  __init__ args = Ok self ->
  arg_memory args <> Some MemoryNotList /\
  (is_Some (arg_tools args) \/ is_Some (arg_handoffs args) ->
   function_calling (model_info (arg_model_client args)) = true) /\
  (ToolUnsupported ∉ default [] (arg_tools args)) /\
  (HandoffUnsupported ∉ default [] (arg_handoffs args)) /\
  NoDup (arg_tool_names args ++ arg_handoff_tool_names args).
Proof.
  intros Hinit.
  assert (is_Ok (__init__ args) = true) as Hok by (by rewrite Hinit).
  rewrite init_is_Ok, !andb_true_iff, !negb_true_iff,
    !has_duplicates_false_NoDup, init_memory_is_Ok in Hok.
  destruct Hok as
    (((((Hmemory & Htools) & Hnames) & Hhandoffs) & Hhnames) & Hany).
  apply init_tools_is_Ok in Htools as [Hfc Hsupported].
  apply init_handoffs_is_Ok in Hhandoffs as [Hfc' Hsupported'].
  split; [done|]. split; [by intros [?|?]; auto|].
  split; [done|]. split; [done|].
  apply NoDup_app. split; [done|]. split; [|done].
  intros n Ht Hh.
  assert (any_in (arg_handoff_tool_names args) (arg_tool_names args) = true)
    by (apply any_in_true; eauto).
  congruence.
Qed.

Lemma find_by_name_NoDup (registry : list Tool) (tool : Tool) :
  NoDup (tool_name <$> registry) -> tool ∈ registry ->
  find (fun t => String.eqb (tool_name t) (tool_name tool)) registry
  = Some tool.
Proof.
  induction registry as [|t registry IH]; csimpl; intros Hnd Hin.
  - by apply elem_of_nil in Hin.
  - apply NoDup_cons in Hnd as [Hnotin Hnd].
    destruct (String.eqb_spec (tool_name t) (tool_name tool)) as [Heq|Hne].
    + apply elem_of_cons in Hin as [->|Hin]; [done|].
      destruct Hnotin. rewrite Heq. by apply list_elem_of_fmap_2.
    + apply elem_of_cons in Hin as [->|Hin]; [done|]. by apply IH.
Qed.

(** X15. In a constructed agent the names of the registry that
    [_execute_tool_call] searches are all different, so that the lookup
    of the name of a registered tool or handoff tool finds that very
    tool: no tool shadows another. *)
Theorem constructed_registry_resolves (args : InitArgs)
    (self : AssistantAgent) :
  __init__ args = Ok self ->
  NoDup (tool_name <$> registry self) /\
  tool_name <$> registry self =
    arg_tool_names args ++ arg_handoff_tool_names args /\
  forall tool, tool ∈ registry self ->
    resolve self (tool_name tool) = Some tool.
Proof.
  intros Hinit.
  destruct (init_Ok_inv _ _ Hinit)
    as (memory & tools & hs & _ & Ht & Hh & Hdt & Hdh & Hdisj & ->).
  unfold resolve, registry. cbn [agent_tools agent_handoff_tools].
  assert (NoDup (tool_name <$> tools ++ (handoff_tool <$> hs))) as Hnd.
  { rewrite fmap_app. apply NoDup_app. split; [done|]. split; [|done].
    intros n Hn Hn'. by apply (Hdisj n). }
  split; [done|]. split.
  - by rewrite fmap_app, (init_tools_names _ _ Ht),
      (init_handoffs_names _ _ Hh).
  - intros tool Hin. by apply find_by_name_NoDup.
Qed.

Lemma handoffs_dict_size (hs : list HandoffBase) :
  size (handoffs_dict hs) = 0%nat <-> hs = [].
Proof.
  split; [|by intros ->].
  intros Hsize. apply map_size_empty_inv in Hsize.
  destruct hs as [|h hs] using rev_ind; [done|].
  rewrite handoffs_dict_snoc in Hsize.
  by apply insert_non_empty in Hsize.
Qed.

Lemma res_mapM_length {A B} (f : A -> PyResult B) xs ys :
  res_mapM f xs = Ok ys -> length ys = length xs.
Proof.
  intros Hmap. apply res_mapM_Ok_lookup in Hmap.
  symmetry. by eapply Forall2_length.
Qed.

(** X16. A constructed agent announces [TextMessage], then
    [HandoffMessage] exactly when it was given a handoff, then
    [ToolCallSummaryMessage] exactly when it was given a tool. *)
Theorem constructed_produced_message_types (args : InitArgs)
    (self : AssistantAgent) :
  __init__ args = Ok self ->
  produced_message_types self =
    [TextMessageType] ++
    match default [] (arg_handoffs args) with
    | [] => []
    | _ :: _ => [HandoffMessageType]
    end ++
    match default [] (arg_tools args) with
    | [] => []
    | _ :: _ => [ToolCallSummaryMessageType]
    end.
Proof.
  intros Hinit.
  destruct (init_Ok_inv _ _ Hinit)
    as (memory & tools & hs & _ & Ht & Hh & _ & _ & _ & ->).
  unfold produced_message_types. cbn [agent_tools agent_handoffs].
  assert (length tools = length (default [] (arg_tools args))) as Hlt.
  { unfold init_tools in Ht. destruct (arg_tools args) as [l|];
      [|by simplify_eq].
    destruct (negb _); [done|]. by eapply res_mapM_length. }
  assert (length hs = length (default [] (arg_handoffs args))) as Hlh.
  { unfold init_handoffs in Hh. destruct (arg_handoffs args) as [l|];
      [|by simplify_eq].
    destruct (negb _); [done|]. by eapply res_mapM_length. }
  destruct (Nat.eqb_spec (size (handoffs_dict hs)) 0) as [Hsize|Hsize].
  - apply handoffs_dict_size in Hsize as ->.
    destruct (default [] (arg_handoffs args)); [|done].
    by destruct tools, (default [] (arg_tools args)).
  - destruct hs as [|h hs]; [done|].
    destruct (default [] (arg_handoffs args)); [done|].
    by destruct tools, (default [] (arg_tools args)).
Qed.


End InitMore.

(** ** The statements on the concrete scenarios *)

(** Discharge the hypotheses of [Hthm], which are closed equations, by
    evaluation. *)
Ltac discharge_by_computation Hthm :=
  repeat match type of Hthm with
         | ?hyp -> _ =>
             let Hhyp := fresh "Hhyp" in
             assert hyp as Hhyp by (vm_compute; reflexivity);
             specialize (Hthm Hhyp); clear Hhyp
         end.

(** An agent built without tools does answer with a
    [ToolCallSummaryMessage], which is not among its
    [produced_message_types]. *)
Lemma summary_outside_produced_types :
  exists response,
    responses (st_yielded (Demo.sc_run DemoStops.no_registry).2)
      = [response] /\
    message_type (chat_message response) ∉
      produced_message_types (Demo.sc_self DemoStops.no_registry).
Proof.
  eexists. split; [vm_compute; reflexivity|].
  intros Hin. vm_compute in Hin.
  apply list_elem_of_singleton in Hin. discriminate Hin.
Qed.

Lemma at_most_two_inference_calls_witness :
  (length (st_create_calls (Demo.sc_run Demo.reflective).2) <= 2)%nat /\
  agent_reflect_on_tool_use (Demo.sc_self Demo.reflective) = true.
Proof.
  pose proof (at_most_two_inference_calls
                (Demo.sc_self Demo.reflective)
                (Demo.sc_messages Demo.reflective)
                (Demo.sc_sched Demo.reflective) [] 0%nat) as Hthm.
  cbv zeta in Hthm. destruct Hthm as (Hlen & _ & Hsecond).
  split; [exact Hlen|].
  assert (st_create_calls (Demo.sc_run Demo.reflective).2 !! 1%nat
          = Some (nth 1 (st_create_calls (Demo.sc_run Demo.reflective).2)
                    ([], []))) as Hlookup by (vm_compute; reflexivity).
  exact (proj2 (Hsecond _ Hlookup)).
Defined.

Lemma demo_paris_memory_appends : memory_appends (Demo.sc_self Demo.paris).
Proof.
  intros memory Hin. vm_compute in Hin.
  apply list_elem_of_singleton in Hin as ->.
  intros cw r cw' [= <- <-]. by eexists.
Qed.

Lemma turn_only_appends_to_context_witness :
  exists added,
    st_model_context (Demo.sc_run Demo.paris).2 = [] ++ added.
Proof.
  apply (turn_only_appends_to_context
           (Demo.sc_self Demo.paris) (Demo.sc_messages Demo.paris)
           (Demo.sc_sched Demo.paris) [] 0%nat).
  exact demo_paris_memory_appends.
Defined.

Lemma ingestion_completes_iff_witness :
  vision (model_info (agent_model_client (Demo.sc_self Demo.paris))) = true \/
  Forall (fun m => is_MultiModalMessage m = false)
    (Demo.sc_messages Demo.paris).
Proof.
  apply (proj1 (ingestion_completes_iff
                  (Demo.sc_self Demo.paris) (Demo.sc_messages Demo.paris)
                  Demo.start)).
  vm_compute. reflexivity.
Defined.

Lemma collaborator_failure_propagates_witness :
  Demo.sc_run DemoStops.memory_fails =
    (Raise DemoStops.store_offline, Demo.sc_s1 DemoStops.memory_fails) /\
  (Demo.sc_run DemoStops.inference_fails).1 = Raise DemoStops.rate_limit.
Proof.
  split.
  - pose proof (collaborator_failure_propagates
                  (Demo.sc_self DemoStops.memory_fails)
                  (Demo.sc_messages DemoStops.memory_fails)
                  (Demo.sc_sched DemoStops.memory_fails) [] 0%nat
                  (Demo.sc_s0 DemoStops.memory_fails)
                  (Demo.sc_s1 DemoStops.memory_fails)) as Hthm.
    assert (add_messages_to_context (Demo.sc_self DemoStops.memory_fails)
              (Demo.sc_messages DemoStops.memory_fails) (turn_start [] 0%nat)
            = (Ok tt, Demo.sc_s0 DemoStops.memory_fails)) as Hadd
      by (vm_compute; reflexivity).
    destruct (Hthm Hadd) as [Hmem _].
    apply (Hmem DemoStops.store_offline). vm_compute. reflexivity.
  - pose proof (collaborator_failure_propagates
                  (Demo.sc_self DemoStops.inference_fails)
                  (Demo.sc_messages DemoStops.inference_fails)
                  (Demo.sc_sched DemoStops.inference_fails) [] 0%nat
                  (Demo.sc_s0 DemoStops.inference_fails)
                  (Demo.sc_s1 DemoStops.inference_fails)) as Hthm.
    assert (add_messages_to_context (Demo.sc_self DemoStops.inference_fails)
              (Demo.sc_messages DemoStops.inference_fails)
              (turn_start [] 0%nat)
            = (Ok tt, Demo.sc_s0 DemoStops.inference_fails)) as Hadd
      by (vm_compute; reflexivity).
    destruct (Hthm Hadd) as [_ Hcreate].
    specialize (Hcreate DemoStops.rate_limit 0%nat).
    cbv zeta in Hcreate.
    assert (update_model_context_with_memory
              (Demo.sc_self DemoStops.inference_fails)
              (Demo.sc_s0 DemoStops.inference_fails)
            = (Ok tt, Demo.sc_s1 DemoStops.inference_fails)) as Hmem
      by (vm_compute; reflexivity).
    assert (Demo.sc_inference DemoStops.inference_fails
            = (Raise DemoStops.rate_limit, 0%nat)) as Hinference
      by (vm_compute; reflexivity).
    destruct (Hcreate Hmem Hinference) as (Hrun & _).
    exact (f_equal fst Hrun).
Defined.

Lemma tool_phase_exception_ends_turn_witness :
  (Demo.sc_run DemoStops.cancellation).1 = Raise DemoStops.cancelled_error /\
  responses (st_yielded (Demo.sc_run DemoStops.cancellation).2) = [] /\
  length (st_create_calls (Demo.sc_run DemoStops.cancellation).2) = 1%nat.
Proof.
  pose proof (tool_phase_exception_ends_turn
                (Demo.sc_self DemoStops.cancellation)
                (Demo.sc_messages DemoStops.cancellation)
                (Demo.sc_sched DemoStops.cancellation) [] 0%nat
                (Demo.sc_s0 DemoStops.cancellation)
                (Demo.sc_s1 DemoStops.cancellation)
                (Demo.sc_result DemoStops.cancellation)
                (Demo.sc_inference DemoStops.cancellation).2
                (Demo.sc_calls DemoStops.cancellation)
                DemoStops.cancelled_error
                (Demo.sc_execution DemoStops.cancellation).2) as Hthm.
  discharge_by_computation Hthm. cbv zeta in Hthm.
  destruct Hthm as (_ & Hrun & _ & _ & Hresponses & Hcalls).
  split; [exact Hrun|]. split; [exact Hresponses|exact Hcalls].
Defined.

Lemma failed_lookup_runs_no_tool_witness :
  _execute_tool_call (Demo.sc_self Demo.failures)
    (Demo.call "c3" "missing") 0%nat
  = (Ok (mkFER "Error: The tool 'missing' is not available." "c3"), 0%nat) /\
  _execute_tool_call (Demo.sc_self Demo.failures)
    (mkFunctionCall "c4" "oops" "get_time") 0%nat
  = (Ok (mkFER "Error: Expecting value: line 1 column 1 (char 0)" "c4"),
     0%nat).
Proof.
  split.
  - etransitivity.
    + apply (proj1 (failed_lookup_runs_no_tool (Demo.sc_self Demo.failures)
                      (Demo.call "c3" "missing") 0%nat)).
      vm_compute. reflexivity.
    + vm_compute. reflexivity.
  - etransitivity.
    + apply (proj2 (failed_lookup_runs_no_tool (Demo.sc_self Demo.failures)
                      (mkFunctionCall "c4" "oops" "get_time") 0%nat)
               Demo.get_time "Expecting value: line 1 column 1 (char 0)");
        vm_compute; reflexivity.
    + vm_compute. reflexivity.
Defined.

Lemma unresolved_batch_runs_no_tool_witness :
  Demo.sc_execution DemoStops.no_registry =
    (Ok [mkFER "Error: No tools are available." "c1";
         mkFER "Error: No tools are available." "c2"], 0%nat).
Proof.
  etransitivity.
  - apply (unresolved_batch_runs_no_tool
             (Demo.sc_self DemoStops.no_registry)
             (Demo.sc_calls DemoStops.no_registry)
             (Demo.sc_sched DemoStops.no_registry)
             (Demo.sc_inference DemoStops.no_registry).2).
    intros tool_call _. vm_compute. reflexivity.
  - vm_compute. reflexivity.
Defined.

Lemma documented_template_summaries_witness :
  tool_call_summaries (Demo.sc_self DemoStops.documented)
    (Demo.sc_calls DemoStops.documented)
    (Demo.sc_results DemoStops.documented)
  = Ok ["get_time: 12:00"].
Proof.
  etransitivity.
  - apply (documented_template_summaries
             (Demo.sc_self DemoStops.documented)
             (Demo.sc_calls DemoStops.documented)
             (Demo.sc_results DemoStops.documented));
      vm_compute; reflexivity.
  - vm_compute. reflexivity.
Defined.

Lemma summary_failure_after_tools_witness :
  Demo.sc_run DemoStops.bad_template =
    (Raise (mkExc KeyError "'output'"),
     after_tools (Demo.sc_self DemoStops.bad_template)
       (Demo.sc_s1 DemoStops.bad_template)
       (Demo.sc_result DemoStops.bad_template)
       (Demo.sc_calls DemoStops.bad_template)
       (Demo.sc_results DemoStops.bad_template)
       (Demo.sc_execution DemoStops.bad_template).2) /\
  responses
    (st_yielded
       (after_tools (Demo.sc_self DemoStops.bad_template)
          (Demo.sc_s1 DemoStops.bad_template)
          (Demo.sc_result DemoStops.bad_template)
          (Demo.sc_calls DemoStops.bad_template)
          (Demo.sc_results DemoStops.bad_template)
          (Demo.sc_execution DemoStops.bad_template).2)) = [].
Proof.
  apply (summary_failure_after_tools
           (Demo.sc_self DemoStops.bad_template)
           (Demo.sc_messages DemoStops.bad_template)
           (Demo.sc_sched DemoStops.bad_template) [] 0%nat
           (Demo.sc_s0 DemoStops.bad_template)
           (Demo.sc_s1 DemoStops.bad_template)
           (Demo.sc_result DemoStops.bad_template)
           (Demo.sc_inference DemoStops.bad_template).2
           (Demo.sc_calls DemoStops.bad_template)
           (Demo.sc_results DemoStops.bad_template)
           (Demo.sc_execution DemoStops.bad_template).2
           (mkExc KeyError "'output'"));
    vm_compute; reflexivity.
Defined.

Lemma empty_call_list_gives_empty_summary_witness :
  completes_with (Demo.sc_run DemoStops.empty_calls)
    {| chat_message :=
         ToolCallSummaryMessage EmptyString
           (agent_name (Demo.sc_self DemoStops.empty_calls)) None;
       inner_messages :=
         st_inner_messages (Demo.sc_s1 DemoStops.empty_calls) ++
           tool_events (Demo.sc_self DemoStops.empty_calls)
             (Demo.sc_result DemoStops.empty_calls) [] [] |} /\
  st_world (Demo.sc_run DemoStops.empty_calls).2 =
    (Demo.sc_inference DemoStops.empty_calls).2.
Proof.
  pose proof (empty_call_list_gives_empty_summary
                (Demo.sc_self DemoStops.empty_calls)
                (Demo.sc_messages DemoStops.empty_calls)
                (Demo.sc_sched DemoStops.empty_calls) [] 0%nat
                (Demo.sc_s0 DemoStops.empty_calls)
                (Demo.sc_s1 DemoStops.empty_calls)
                (Demo.sc_result DemoStops.empty_calls)
                (Demo.sc_inference DemoStops.empty_calls).2) as Hthm.
  discharge_by_computation Hthm. exact Hthm.
Defined.

Lemma init_succeeds_only_if_witness :
  function_calling
    (model_info (arg_model_client (Demo.sc_args Demo.two_handoffs))) = true /\
  NoDup (arg_tool_names (Demo.sc_args Demo.two_handoffs) ++
         arg_handoff_tool_names (Demo.sc_args Demo.two_handoffs)).
Proof.
  pose proof (init_succeeds_only_if (Demo.sc_args Demo.two_handoffs)
                (Demo.sc_self Demo.two_handoffs)) as Hthm.
  discharge_by_computation Hthm.
  destruct Hthm as (_ & Hfc & _ & _ & Hnames).
  split; [|exact Hnames]. apply Hfc. left. by eexists.
Defined.

Lemma constructed_registry_resolves_witness :
  NoDup (tool_name <$> registry (Demo.sc_self Demo.two_handoffs)) /\
  tool_name <$> registry (Demo.sc_self Demo.two_handoffs) =
    arg_tool_names (Demo.sc_args Demo.two_handoffs) ++
      arg_handoff_tool_names (Demo.sc_args Demo.two_handoffs) /\
  forall tool, tool ∈ registry (Demo.sc_self Demo.two_handoffs) ->
    resolve (Demo.sc_self Demo.two_handoffs) (tool_name tool) = Some tool.
Proof.
  apply (constructed_registry_resolves
           (Demo.sc_args Demo.two_handoffs) (Demo.sc_self Demo.two_handoffs)).
  vm_compute. reflexivity.
Defined.

Lemma constructed_produced_message_types_witness :
  produced_message_types (Demo.sc_self Demo.two_handoffs) =
    [TextMessageType; HandoffMessageType; ToolCallSummaryMessageType].
Proof.
  etransitivity.
  - apply (constructed_produced_message_types
             (Demo.sc_args Demo.two_handoffs)
             (Demo.sc_self Demo.two_handoffs)).
    vm_compute. reflexivity.
  - vm_compute. reflexivity.
Defined.

